(** * Endpoint resolution and connection establishment of the NSE manager

    A shallow embedding of [controlplane/pkg/nsm/nse_manager.go]:
    [GetEndpoint], [CreateNSEClient], [IsLocalEndpoint], [CheckUpdateNSE],
    [cleanupNSE], [filterEndpoints] and [getTargetEndpoint].

    The manager owns no data of its own.  Everything it does goes through
    the interfaces it holds: the model (local state and selector), the
    service registry (discovery and transports) and the clients it
    creates.  A method of the manager is therefore embedded as a program
    over the calls to these interfaces ([prog]), and run against an
    arbitrary implementation of them ([handler]), which yields the value
    returned together with the sequence of calls made ([run]).

    Tracing spans and log lines record what happens and return nothing the
    code branches on; of a span only the context it derives is kept. *)

From stdpp Require Import base option list strings gmap.

(** ** Messages of the registry and connection packages

    Pointers to messages are [option]s; the getters are the nil-safe
    getters of the generated code and return the zero value on [None]. *)

Record NetworkService := {
  ns_Name : string;
  ns_Payload : string
}.

Record NetworkServiceManager := {
  nsm_Name : string;
  nsm_Url : string
}.

Record NetworkServiceEndpoint := {
  nse_Name : string;
  nse_Payload : string;
  nse_NetworkServiceName : string;
  nse_NetworkServiceManagerName : string
}.

Record NSERegistration := {
  reg_NetworkService : option NetworkService;
  reg_NetworkServiceManager : option NetworkServiceManager;
  reg_NetworkServiceEndpoint : option NetworkServiceEndpoint
}.

Record FindNetworkServiceRequest := {
  req_NetworkServiceName : string
}.

(** The elements of [NetworkServiceEndpoints] are messages, not nil:
    [filterEndpoints] reads a field of each one. *)
Record FindNetworkServiceResponse := {
  resp_Payload : string;
  resp_NetworkService : option NetworkService;
  resp_NetworkServiceManagers : gmap string NetworkServiceManager;
  resp_NetworkServiceEndpoints : list NetworkServiceEndpoint
}.

(** What the manager reads of a [connection.Connection]: the results of
    [GetNetworkService], [GetNetworkServiceEndpointName] and
    [GetDestinationNetworkServiceManagerName]. *)
Record Connection := {
  GetNetworkService : string;
  GetNetworkServiceEndpointName : string;
  GetDestinationNetworkServiceManagerName : string
}.

(** [model.Endpoint]: the registration it wraps and the result of its
    [EndpointName] method, which is declared in the model package. *)
Record Endpoint := {
  ep_Endpoint : option NSERegistration;
  EndpointName : string;
  ep_SocketLocation : string;
  ep_Workspace : string
}.

Definition NetworkServiceManager_GetName (m : option NetworkServiceManager) : string :=
  from_option nsm_Name "" m.

Definition NetworkServiceEndpoint_GetName (e : option NetworkServiceEndpoint) : string :=
  from_option nse_Name "" e.

Definition NetworkServiceEndpoint_GetNetworkServiceManagerName
    (e : option NetworkServiceEndpoint) : string :=
  from_option nse_NetworkServiceManagerName "" e.

Definition GetNetworkServiceEndpoint (r : option NSERegistration)
    : option NetworkServiceEndpoint :=
  r ≫= reg_NetworkServiceEndpoint.

Definition GetNetworkServiceManager (r : option NSERegistration)
    : option NetworkServiceManager :=
  r ≫= reg_NetworkServiceManager.

(** ** Errors

    The errors built by the manager with [errors.Errorf], one constructor
    per format string with the values formatted into it, and the errors
    handed over by a collaborator. *)
Inductive error :=
  | ErrLocalRegistry (targetEndpoint : string)
      (* Could not find endpoint with name: %s at local registry *)
  | ErrTargetedNSE (targetEndpoint targetNsemName networkService : string) (checked : nat)
      (* failed to find targeted NSE %s (NSMgr=%s) for NetworkService %s. Checked: %d endpoints *)
  | ErrNoNSE (networkService : string) (checked total : nat)
      (* failed to find NSE for NetworkService %s. Checked: %d of total NSEs: %d *)
  | ErrEndpointNotFound (endpoint : option NSERegistration)
      (* Endpoint not found: %v *)
  | ErrCollaborator (msg : string).

(** The errors that say that no endpoint was found. *)
Definition NotFound (e : error) : bool :=
  match e with
  | ErrCollaborator _ => false
  | _ => true
  end.

(** ** Contexts, configuration and clients *)

(** [time.Duration], in nanoseconds. *)
Definition Duration := Z.

Inductive Context :=
  | ctx_caller (id : nat)
  | ctx_span (parent : Context) (operation : string)
  | WithTimeout (parent : Context) (timeout : Duration).

#[global] Instance Context_eq_dec : EqDecision Context.
Proof. solve_decision. Defined.

(** [bounded_by root c]: the context [c] is [root] or derives from it, and
    so ends no later than [root] does. *)
Fixpoint bounded_by (root c : Context) : bool :=
  bool_decide (c = root)
  || match c with
     | ctx_caller _ => false
     | ctx_span parent _ => bounded_by root parent
     | WithTimeout parent _ => bounded_by root parent
     end.

Record Properties := {
  HealRequestConnectTimeout : Duration;
  HealRequestConnectCheckTimeout : Duration
}.

(** The fields [serviceRegistry] and [model] are interfaces; their methods
    are the calls of [Call] below. *)
Record nseManager := {
  props : Properties
}.

Definition Selector := nat.
Definition NetworkServiceDiscoveryClient := nat.
Definition TransportClient := nat.
Definition ClientConn := nat.

Inductive NetworkServiceClient :=
  | endpointClient (connection : ClientConn) (client : TransportClient)
  | nsmClient (client : TransportClient) (connection : ClientConn).

(** The result of an interface method returning a value and an [error]:
    a value when the error is nil. *)
Inductive reply (A : Type) :=
  | Done (a : A)
  | Failed (err : error).
Arguments Done {A} a.
Arguments Failed {A} err.

(** ** Calls to the collaborators *)

Inductive Call : Type → Type :=
  | Model_GetNsm : Call (option NetworkServiceManager)
  | Model_GetEndpoint (name : string) : Call (option Endpoint)
  | Model_DeleteEndpoint (ctx : Context) (name : string) : Call unit
  | Model_GetSelector : Call Selector
  | Selector_SelectEndpoint (sel : Selector) (requestConnection : Connection)
      (ns : option NetworkService) (endpoints : list NetworkServiceEndpoint)
      : Call (option NetworkServiceEndpoint)
  | ServiceRegistry_DiscoveryClient (ctx : Context)
      : Call (reply NetworkServiceDiscoveryClient)
  | DiscoveryClient_FindNetworkService (dc : NetworkServiceDiscoveryClient)
      (ctx : Context) (request : FindNetworkServiceRequest)
      : Call (reply FindNetworkServiceResponse)
  | ServiceRegistry_EndpointConnection (ctx : Context) (endpoint : Endpoint)
      : Call (reply (TransportClient * ClientConn))
  | ServiceRegistry_RemoteNetworkServiceClient (ctx : Context)
      (nsm : option NetworkServiceManager)
      : Call (reply (TransportClient * ClientConn))
  | Client_Cleanup (c : NetworkServiceClient) : Call (option error)
  | Context_cancel (ctx : Context) : Call unit.

(** A call with the answer it got. *)
Inductive event :=
  | Ev {X : Type} (c : Call X) (x : X).

(** ** Programs over the calls *)

Inductive prog (R : Type) : Type :=
  | Ret (r : R)
  | Vis {X : Type} (c : Call X) (k : X → prog R).
Arguments Ret {R} r.
Arguments Vis {R X} c k.

Fixpoint bind {A B : Type} (m : prog A) (f : A → prog B) : prog B :=
  match m with
  | Ret a => f a
  | Vis c k => Vis c (λ x, bind (k x) f)
  end.

Definition call {X : Type} (c : Call X) : prog X := Vis c Ret.

#[global] Instance prog_ret : MRet prog := @Ret.
#[global] Instance prog_bind : MBind prog := λ A B f m, bind m f.

(** An implementation of the collaborators: it answers every call and
    moves its own state. *)
Definition handler (S : Type) : Type := ∀ X : Type, Call X → S → X * S.

Fixpoint run {S R : Type} (h : handler S) (p : prog R) (s : S) : R * S * list event :=
  match p with
  | Ret r => (r, s, [])
  | Vis c k =>
      let '(x, s1) := h _ c s in
      let '(r, s2, tr) := run h (k x) s1 in
      (r, s2, Ev c x :: tr)
  end.

(** Calls by kind: those that reach discovery, the selector's choice, the
    eviction of a local endpoint, the lookup of a local endpoint and the
    opening of a connection to a remote manager. *)
Definition is_discovery (e : event) : bool :=
  match e with
  | Ev (ServiceRegistry_DiscoveryClient _) _ => true
  | Ev (DiscoveryClient_FindNetworkService _ _ _) _ => true
  | _ => false
  end.

Definition is_select (e : event) : bool :=
  match e with
  | Ev (Selector_SelectEndpoint _ _ _ _) _ => true
  | _ => false
  end.

Definition is_delete (e : event) : bool :=
  match e with
  | Ev (Model_DeleteEndpoint _ _) _ => true
  | _ => false
  end.

Definition is_local_lookup (e : event) : bool :=
  match e with
  | Ev (Model_GetEndpoint _) _ => true
  | _ => false
  end.

Definition is_remote_open (e : event) : bool :=
  match e with
  | Ev (ServiceRegistry_RemoteNetworkServiceClient _ _) _ => true
  | _ => false
  end.

(** The response of a successful discovery query. *)
Definition find_response (e : event) : option FindNetworkServiceResponse :=
  match e with
  | Ev c x =>
      match c in Call X return X → option FindNetworkServiceResponse with
      | DiscoveryClient_FindNetworkService _ _ _ =>
          λ x, match x with Done response => Some response | Failed _ => None end
      | _ => λ _, None
      end x
  end.

(** The most recent discovery response of a trace. *)
Definition last_response (tr : list event) : option FindNetworkServiceResponse :=
  last (omap find_response tr).

(** The candidate lists handed to the selector. *)
Definition selector_candidates (e : event) : option (list NetworkServiceEndpoint) :=
  match e with
  | Ev (Selector_SelectEndpoint _ _ _ endpoints) _ => Some endpoints
  | _ => None
  end.

(** The contexts of the remote connection opens. *)
Definition remote_open_context (e : event) : option Context :=
  match e with
  | Ev (ServiceRegistry_RemoteNetworkServiceClient ctx _) _ => Some ctx
  | _ => None
  end.

(** The context a call is made under, for the calls that take one. *)
Definition call_context (e : event) : option Context :=
  match e with
  | Ev (Model_DeleteEndpoint ctx _) _ => Some ctx
  | Ev (ServiceRegistry_DiscoveryClient ctx) _ => Some ctx
  | Ev (DiscoveryClient_FindNetworkService _ ctx _) _ => Some ctx
  | Ev (ServiceRegistry_EndpointConnection ctx _) _ => Some ctx
  | Ev (ServiceRegistry_RemoteNetworkServiceClient ctx _) _ => Some ctx
  | Ev (Context_cancel ctx) _ => Some ctx
  | _ => None
  end.

(** Every call of the trace that takes a context is made under [root] or
    under a context derived from it. *)
Definition all_bounded_by (root : Context) (tr : list event) : Prop :=
  Forall (λ e, from_option (bounded_by root) true (call_context e) = true) tr.

(** A program takes the local establishment path when it looks the
    endpoint up in local state, and the remote one when it opens a
    connection to a remote manager. *)
Definition local_path (tr : list event) : bool := existsb is_local_lookup tr.
Definition remote_path (tr : list event) : bool := existsb is_remote_open tr.

(** ** The endpoint resolver *)

Section Resolver.

(** [registry.EndpointNSMName], the key of the exclusion map, with the two
    functions of the registry package that build it: the identity of a
    candidate with the manager reported for it, and the identity of a
    registration. *)
Context {EndpointNSMName : Type} `{Countable EndpointNSMName}.
Variable NewEndpointNSMName :
  option NetworkServiceEndpoint → option NetworkServiceManager → EndpointNSMName.
Variable GetEndpointNSMName : option NSERegistration → EndpointNSMName.

(** [map[registry.EndpointNSMName]*registry.NSERegistration]: the marker
    is a pointer. *)
Local Abbreviation ExclusionSet := (gmap EndpointNSMName (option NSERegistration)).

(** [ignoreEndpoints[k]]: nil for a key the map does not hold. *)
Definition index (ignoreEndpoints : ExclusionSet) (k : EndpointNSMName)
    : option NSERegistration :=
  default None (ignoreEndpoints !! k).

(** An identity is excluded when the map gives it a marker, which is the
    test [ignoreEndpoints[k] == nil] of the code negated. *)
Definition excluded (ignoreEndpoints : ExclusionSet) (k : EndpointNSMName) : bool :=
  bool_decide (index ignoreEndpoints k ≠ None).

(** The identity under which [filterEndpoints] looks a candidate up. *)
Definition candidate_identity (managers : gmap string NetworkServiceManager)
    (candidate : NetworkServiceEndpoint) : EndpointNSMName :=
  NewEndpointNSMName (Some candidate)
    (managers !! nse_NetworkServiceManagerName candidate).

Fixpoint filterEndpoints (endpoints : list NetworkServiceEndpoint)
    (managers : gmap string NetworkServiceManager)
    (ignoreEndpoints : ExclusionSet) : list NetworkServiceEndpoint :=
  match endpoints with
  | [] => []
  | candidate :: rest =>
      let endpointName :=
        NewEndpointNSMName (Some candidate)
          (managers !! nse_NetworkServiceManagerName candidate) in
      if bool_decide (index ignoreEndpoints endpointName = None)
      then candidate :: filterEndpoints rest managers ignoreEndpoints
      else filterEndpoints rest managers ignoreEndpoints
  end.

Fixpoint getTargetEndpoint (endpoints : list NetworkServiceEndpoint)
    (targetEndpoint targetNSManager : string) : option NetworkServiceEndpoint :=
  match endpoints with
  | [] => None
  | candidate :: rest =>
      if bool_decide (nse_Name candidate = targetEndpoint)
      then Some candidate
      else getTargetEndpoint rest targetEndpoint targetNSManager
  end.

(** The registration built at the end of [GetEndpoint]. *)
Definition registration_of (endpointResponse : FindNetworkServiceResponse)
    (endpoint : NetworkServiceEndpoint) : NSERegistration :=
  {| reg_NetworkServiceManager :=
       resp_NetworkServiceManagers endpointResponse
         !! nse_NetworkServiceManagerName endpoint;
     reg_NetworkServiceEndpoint := Some endpoint;
     reg_NetworkService := resp_NetworkService endpointResponse |}.

(** [GetEndpoint] returns the registration and the error of the code, and
    with them the content of the caller's exclusion map when it returns:
    the map is passed by reference. *)
Definition GetEndpoint (ctx : Context) (requestConnection : Connection)
    (ignoreEndpoints : ExclusionSet)
    : prog (option NSERegistration * option error * ExclusionSet) :=
  let targetEndpoint := GetNetworkServiceEndpointName requestConnection in
  nsm ← call Model_GetNsm;
  let myNsemName := NetworkServiceManager_GetName nsm in
  let targetNsemName := GetDestinationNetworkServiceManagerName requestConnection in
  if (0 <? String.length targetEndpoint)
     && ((0 <? String.length targetNsemName)
         && bool_decide (myNsemName = targetNsemName))
  then
    endpoint ← call (Model_GetEndpoint targetEndpoint);
    match endpoint with
    | Some endpoint =>
        if bool_decide
             (index ignoreEndpoints (GetEndpointNSMName (ep_Endpoint endpoint)) = None)
        then mret (ep_Endpoint endpoint, None, ignoreEndpoints)
        else mret (None, Some (ErrLocalRegistry targetEndpoint), ignoreEndpoints)
    | None => mret (None, Some (ErrLocalRegistry targetEndpoint), ignoreEndpoints)
    end
  else
    dc ← call (ServiceRegistry_DiscoveryClient ctx);
    match dc with
    | Failed err => mret (None, Some err, ignoreEndpoints)
    | Done discoveryClient =>
        let nseRequest :=
          {| req_NetworkServiceName := GetNetworkService requestConnection |} in
        found ← call (DiscoveryClient_FindNetworkService discoveryClient ctx nseRequest);
        match found with
        | Failed err => mret (None, Some err, ignoreEndpoints)
        | Done endpointResponse =>
            chosen ←
              (if 0 <? String.length targetEndpoint
               then
                 match getTargetEndpoint (resp_NetworkServiceEndpoints endpointResponse)
                         targetEndpoint targetNsemName with
                 | None =>
                     mret (Failed
                       (ErrTargetedNSE targetEndpoint targetNsemName
                          (GetNetworkService requestConnection)
                          (length (resp_NetworkServiceEndpoints endpointResponse))))
                 | Some endpoint => mret (Done endpoint)
                 end
               else
                 let endpoints :=
                   filterEndpoints (resp_NetworkServiceEndpoints endpointResponse)
                     (resp_NetworkServiceManagers endpointResponse) ignoreEndpoints in
                 if bool_decide (length endpoints = 0)
                 then
                   mret (Failed
                     (ErrNoNSE (GetNetworkService requestConnection)
                        (size ignoreEndpoints) (length endpoints)))
                 else
                   selector ← call Model_GetSelector;
                   endpoint ← call (Selector_SelectEndpoint selector requestConnection
                                      (resp_NetworkService endpointResponse) endpoints);
                   match endpoint with
                   | None =>
                       mret (Failed
                         (ErrNoNSE (GetNetworkService requestConnection)
                            (size ignoreEndpoints) (length endpoints)))
                   | Some endpoint => mret (Done endpoint)
                   end);
            match chosen with
            | Failed err => mret (None, Some err, ignoreEndpoints)
            | Done endpoint =>
                mret (Some (registration_of endpointResponse endpoint), None,
                      ignoreEndpoints)
            end
        end
    end.

End Resolver.

(** ** The connection establisher and the health prober *)

Definition IsLocalEndpoint (endpoint : option NSERegistration) : prog bool :=
  nsm ← call Model_GetNsm;
  mret (bool_decide
          (NetworkServiceManager_GetName nsm =
           NetworkServiceEndpoint_GetNetworkServiceManagerName
             (GetNetworkServiceEndpoint endpoint))).

Definition cleanupNSE (ctx : Context) (endpoint : Endpoint) : prog unit :=
  call (Model_DeleteEndpoint ctx (EndpointName endpoint)).

Definition CreateNSEClient (nsem : nseManager) (ctx : Context)
    (endpoint : option NSERegistration)
    : prog (option NetworkServiceClient * option error) :=
  let span := ctx_span ctx "createNSEClient" in
  isLocal ← IsLocalEndpoint endpoint;
  if isLocal : bool then
    modelEp ← call (Model_GetEndpoint
                      (NetworkServiceEndpoint_GetName (GetNetworkServiceEndpoint endpoint)));
    match modelEp with
    | None => mret (None, Some (ErrEndpointNotFound endpoint))
    | Some modelEp =>
        opened ← call (ServiceRegistry_EndpointConnection span modelEp);
        match opened with
        | Failed err =>
            cleanupNSE ctx modelEp;;
            mret (None, Some err)
        | Done (client, conn) => mret (Some (endpointClient conn client), None)
        end
    end
  else
    let ctx' := WithTimeout span (HealRequestConnectTimeout (props nsem)) in
    opened ← call (ServiceRegistry_RemoteNetworkServiceClient ctx'
                     (GetNetworkServiceManager endpoint));
    call (Context_cancel ctx');;
    match opened with
    | Failed err => mret (None, Some err)
    | Done (client, conn) => mret (Some (nsmClient client conn), None)
    end.

Definition CheckUpdateNSE (nsem : nseManager) (ctx : Context)
    (reg : option NSERegistration) : prog bool :=
  let pingCtx := WithTimeout ctx (HealRequestConnectCheckTimeout (props nsem)) in
  created ← CreateNSEClient nsem pingCtx reg;
  match created with
  | (Some client, None) =>
      call (Client_Cleanup client);;
      call (Context_cancel pingCtx);;
      mret true
  | _ =>
      call (Context_cancel pingCtx);;
      mret false
  end.

(** ** A world to run the programs in

    One implementation of the collaborators, for running the programs on
    concrete inputs: local state is a map from names to endpoints,
    discovery answers with a fixed reply, the selector takes the first
    candidate and each transport answers with a fixed reply. *)

Record World := {
  w_nsm : option NetworkServiceManager;
  w_endpoints : gmap string Endpoint;
  w_discovery : reply FindNetworkServiceResponse;
  w_local : reply (TransportClient * ClientConn);
  w_remote : reply (TransportClient * ClientConn);
  w_cleanup : option error
}.

Definition delete_endpoint (name : string) (w : World) : World :=
  {| w_nsm := w_nsm w;
     w_endpoints := delete name (w_endpoints w);
     w_discovery := w_discovery w;
     w_local := w_local w;
     w_remote := w_remote w;
     w_cleanup := w_cleanup w |}.

Definition world : handler World := λ X c w,
  match c in Call X return X * World with
  | Model_GetNsm => (w_nsm w, w)
  | Model_GetEndpoint name => (w_endpoints w !! name, w)
  | Model_DeleteEndpoint _ name => (tt, delete_endpoint name w)
  | Model_GetSelector => (0, w)
  | Selector_SelectEndpoint _ _ _ endpoints => (head endpoints, w)
  | ServiceRegistry_DiscoveryClient _ => (Done 0, w)
  | DiscoveryClient_FindNetworkService _ _ _ => (w_discovery w, w)
  | ServiceRegistry_EndpointConnection _ _ => (w_local w, w)
  | ServiceRegistry_RemoteNetworkServiceClient _ _ => (w_remote w, w)
  | Client_Cleanup _ => (w_cleanup w, w)
  | Context_cancel _ => (tt, w)
  end.

(** Identities as pairs of the endpoint's name and the manager's name. *)
Definition pair_NewEndpointNSMName (e : option NetworkServiceEndpoint)
    (m : option NetworkServiceManager) : string * string :=
  (NetworkServiceEndpoint_GetName e, NetworkServiceManager_GetName m).

Definition pair_GetEndpointNSMName (r : option NSERegistration) : string * string :=
  pair_NewEndpointNSMName (GetNetworkServiceEndpoint r) (GetNetworkServiceManager r).

Definition mgr_self : NetworkServiceManager := {| nsm_Name := "nsm-1"; nsm_Url := "10.0.0.1:5001" |}.
Definition mgr_peer : NetworkServiceManager := {| nsm_Name := "nsm-2"; nsm_Url := "10.0.0.2:5001" |}.

Definition svc : NetworkService := {| ns_Name := "icmp"; ns_Payload := "IP" |}.

Definition nse_a : NetworkServiceEndpoint :=
  {| nse_Name := "ep-a"; nse_Payload := "IP"; nse_NetworkServiceName := "icmp";
     nse_NetworkServiceManagerName := "nsm-1" |}.
Definition nse_b : NetworkServiceEndpoint :=
  {| nse_Name := "ep-b"; nse_Payload := "IP"; nse_NetworkServiceName := "icmp";
     nse_NetworkServiceManagerName := "nsm-2" |}.

Definition reg_a : NSERegistration :=
  {| reg_NetworkService := Some svc; reg_NetworkServiceManager := Some mgr_self;
     reg_NetworkServiceEndpoint := Some nse_a |}.
Definition reg_b : NSERegistration :=
  {| reg_NetworkService := Some svc; reg_NetworkServiceManager := Some mgr_peer;
     reg_NetworkServiceEndpoint := Some nse_b |}.

Definition local_a : Endpoint :=
  {| ep_Endpoint := Some reg_a; EndpointName := "ep-a";
     ep_SocketLocation := "/var/lib/nsm/ep-a.sock"; ep_Workspace := "ws-a" |}.

Definition response_ab : FindNetworkServiceResponse :=
  {| resp_Payload := "IP"; resp_NetworkService := Some svc;
     resp_NetworkServiceManagers := {[ "nsm-1" := mgr_self; "nsm-2" := mgr_peer ]};
     resp_NetworkServiceEndpoints := [nse_a; nse_b] |}.

(** A world in which this node holds [ep-a] but cannot connect to it, and
    the peer answers. *)
Definition world_1 : World :=
  {| w_nsm := Some mgr_self;
     w_endpoints := {[ "ep-a" := local_a ]};
     w_discovery := Done response_ab;
     w_local := Failed (ErrCollaborator "connection refused");
     w_remote := Done (7, 8);
     w_cleanup := Some (ErrCollaborator "close failed") |}.

Definition manager_1 : nseManager :=
  {| props := {| HealRequestConnectTimeout := 15000000000%Z;
                 HealRequestConnectCheckTimeout := 1000000000%Z |} |}.

Definition request_pinned_local : Connection :=
  {| GetNetworkService := "icmp"; GetNetworkServiceEndpointName := "ep-a";
     GetDestinationNetworkServiceManagerName := "nsm-1" |}.
Definition request_pinned_b : Connection :=
  {| GetNetworkService := "icmp"; GetNetworkServiceEndpointName := "ep-b";
     GetDestinationNetworkServiceManagerName := "" |}.
Definition request_open : Connection :=
  {| GetNetworkService := "icmp"; GetNetworkServiceEndpointName := "";
     GetDestinationNetworkServiceManagerName := "" |}.

Definition ignore_a : gmap (string * string) (option NSERegistration) :=
  {[ ("ep-a", "nsm-1") := Some reg_a ]}.
Definition ignore_b : gmap (string * string) (option NSERegistration) :=
  {[ ("ep-b", "nsm-2") := Some reg_b ]}.

(** A registration whose manager is a peer although its endpoint names
    this node's manager as its owner. *)
Definition reg_mixed : NSERegistration :=
  {| reg_NetworkService := Some svc; reg_NetworkServiceManager := Some mgr_peer;
     reg_NetworkServiceEndpoint := Some nse_a |}.

(** A world without local endpoints, in which the peer does not answer. *)
Definition world_2 : World :=
  {| w_nsm := Some mgr_self;
     w_endpoints := ∅;
     w_discovery := Done response_ab;
     w_local := Done (3, 4);
     w_remote := Failed (ErrCollaborator "deadline exceeded");
     w_cleanup := None |}.

(** [GetEndpoint] with identities as pairs. *)
Definition resolve := GetEndpoint pair_NewEndpointNSMName pair_GetEndpointNSMName.

(** ** Further readings of a trace *)

(** The calls that only ask something of the model, of discovery or of the
    selector. *)
Definition is_query (e : event) : bool :=
  match e with
  | Ev Model_GetNsm _ => true
  | Ev (Model_GetEndpoint _) _ => true
  | Ev Model_GetSelector _ => true
  | Ev (Selector_SelectEndpoint _ _ _ _) _ => true
  | Ev (ServiceRegistry_DiscoveryClient _) _ => true
  | Ev (DiscoveryClient_FindNetworkService _ _ _) _ => true
  | _ => false
  end.

Definition is_cancel (e : event) : bool :=
  match e with
  | Ev (Context_cancel _) _ => true
  | _ => false
  end.

Definition is_cleanup (e : event) : bool :=
  match e with
  | Ev (Client_Cleanup _) _ => true
  | _ => false
  end.

(** The error with which discovery answered, when it did. *)
Definition discovery_error (e : event) : option error :=
  match e with
  | Ev c x =>
      match c in Call X return X → option error with
      | ServiceRegistry_DiscoveryClient _ =>
          λ x, match x with Done _ => None | Failed err => Some err end
      | DiscoveryClient_FindNetworkService _ _ _ =>
          λ x, match x with Done _ => None | Failed err => Some err end
      | _ => λ _, None
      end x
  end.

(** The context and the request of a discovery query. *)
Definition find_request (e : event) : option (Context * FindNetworkServiceRequest) :=
  match e with
  | Ev (DiscoveryClient_FindNetworkService _ ctx request) _ => Some (ctx, request)
  | _ => None
  end.

(** The context a call cancels. *)
Definition cancelled_context (e : event) : option Context :=
  match e with
  | Ev (Context_cancel ctx) _ => Some ctx
  | _ => None
  end.

(** ** Further worlds and inputs *)

(** The world [world] with a service registry that gives no discovery
    client. *)
Definition world_without_discovery (err : error) : handler World := λ X c w,
  match c in Call X return X * World with
  | ServiceRegistry_DiscoveryClient _ => (Failed err, w)
  | other => world _ other w
  end.

(** The world [world] with a selector that answers with a fixed choice. *)
Definition world_with_selector (choice : option NetworkServiceEndpoint)
    : handler World := λ X c w,
  match c in Call X return X * World with
  | Selector_SelectEndpoint _ _ _ _ => (choice, w)
  | other => world _ other w
  end.

(** A world in which the discovery query fails. *)
Definition world_3 : World :=
  {| w_nsm := Some mgr_self;
     w_endpoints := {[ "ep-a" := local_a ]};
     w_discovery := Failed (ErrCollaborator "registry unavailable");
     w_local := Done (3, 4);
     w_remote := Done (7, 8);
     w_cleanup := None |}.

(** A request that pins [ep-b] at a manager that does not own it. *)
Definition request_pinned_b_elsewhere : Connection :=
  {| GetNetworkService := "icmp"; GetNetworkServiceEndpointName := "ep-b";
     GetDestinationNetworkServiceManagerName := "nsm-9" |}.

(** An exclusion map that holds a key with a nil marker. *)
Definition ignore_nil : gmap (string * string) (option NSERegistration) :=
  {[ ("ep-a", "nsm-1") := None ]}.

(** * Properties *)

(** Case analysis, in the goal, on the answers of the collaborators and
    on the tests of the code. *)
Ltac reduce :=
  cbn -[String.length Nat.ltb andb bool_decide].

Ltac answers :=
  reduce;
  repeat match goal with
    | |- context [?h ?X ?c ?s] =>
        match type of h with
        | handler _ => destruct (h X c s) as [? ?] eqn:?; reduce
        end
    | |- context [match ?x with _ => _ end] =>
        lazymatch x with
        | context [@run] => fail
        | _ => destruct x eqn:?; reduce
        end
    end.

(** ** Running programs *)

Lemma run_bind {S A B : Type} (h : handler S) (m : prog A) (f : A → prog B) (s : S) :
  run h (m ≫= f) s =
    let '(a, s1, tr1) := run h m s in
    let '(b, s2, tr2) := run h (f a) s1 in
    (b, s2, tr1 ++ tr2).
Proof.
  revert s. induction m as [a | X c k IH]; intros s.
  - cbn. by destruct (run h (f a) s) as [[b s2] tr2].
  - change (Vis c k ≫= f) with (Vis c (λ x, k x ≫= f)). cbn [run].
    destruct (h X c s) as [x s1]. rewrite IH.
    destruct (run h (k x) s1) as [[a s2] tr1].
    by destruct (run h (f a) s2) as [[b s3] tr2].
Qed.

Example GetEndpoint_world_1 :
  run world (GetEndpoint pair_NewEndpointNSMName pair_GetEndpointNSMName
               (ctx_caller 0) request_open ignore_a) world_1
  = ((Some reg_b, None, ignore_a), world_1,
     [Ev Model_GetNsm (Some mgr_self);
      Ev (ServiceRegistry_DiscoveryClient (ctx_caller 0)) (Done 0);
      Ev (DiscoveryClient_FindNetworkService 0 (ctx_caller 0)
            {| req_NetworkServiceName := "icmp" |}) (Done response_ab);
      Ev Model_GetSelector 0;
      Ev (Selector_SelectEndpoint 0 request_open (Some svc) [nse_b]) (Some nse_b)]).
Proof. reflexivity. Qed.

(** With both candidates excluded the selector is not asked. *)
Example GetEndpoint_all_excluded :
  run world (resolve (ctx_caller 0) request_open (ignore_a ∪ ignore_b)) world_1
  = ((None, Some (ErrNoNSE "icmp" 2 0), ignore_a ∪ ignore_b), world_1,
     [Ev Model_GetNsm (Some mgr_self);
      Ev (ServiceRegistry_DiscoveryClient (ctx_caller 0)) (Done 0);
      Ev (DiscoveryClient_FindNetworkService 0 (ctx_caller 0)
            {| req_NetworkServiceName := "icmp" |}) (Done response_ab)]).
Proof. reflexivity. Qed.

(** A pinned local endpoint that local state does not hold is not looked
    for anywhere else. *)
Example GetEndpoint_pinned_local_miss :
  run world (resolve (ctx_caller 0) request_pinned_local ∅) world_2
  = ((None, Some (ErrLocalRegistry "ep-a"), ∅), world_2,
     [Ev Model_GetNsm (Some mgr_self); Ev (Model_GetEndpoint "ep-a") None]).
Proof. reflexivity. Qed.

(** A local connection that cannot be opened evicts the endpoint. *)
Example CreateNSEClient_world_1 :
  run world (CreateNSEClient manager_1 (ctx_caller 0) (Some reg_a)) world_1
  = ((None, Some (ErrCollaborator "connection refused")),
     delete_endpoint "ep-a" world_1,
     [Ev Model_GetNsm (Some mgr_self);
      Ev (Model_GetEndpoint "ep-a") (Some local_a);
      Ev (ServiceRegistry_EndpointConnection
            (ctx_span (ctx_caller 0) "createNSEClient") local_a)
         (Failed (ErrCollaborator "connection refused"));
      Ev (Model_DeleteEndpoint (ctx_caller 0) "ep-a") tt]).
Proof. reflexivity. Qed.

Lemma length_pos_nonempty (x : string) : x ≠ "" → (0 <? String.length x) = true.
Proof. destruct x; [done | intros _; reflexivity]. Qed.

(** ** The resolver *)

Section ResolverFacts.

Context {EndpointNSMName : Type} `{Countable EndpointNSMName}.
Variable NewEndpointNSMName :
  option NetworkServiceEndpoint → option NetworkServiceManager → EndpointNSMName.
Variable GetEndpointNSMName : option NSERegistration → EndpointNSMName.

Local Abbreviation ExclusionSet := (gmap EndpointNSMName (option NSERegistration)).
Local Abbreviation GetEndpoint' := (GetEndpoint NewEndpointNSMName GetEndpointNSMName).
Local Abbreviation identity := (candidate_identity NewEndpointNSMName).

Lemma excluded_index (ignoreEndpoints : ExclusionSet) (k : EndpointNSMName) :
  bool_decide (index ignoreEndpoints k = None) = negb (excluded ignoreEndpoints k).
Proof.
  unfold excluded. destruct (index ignoreEndpoints k) as [r|].
  - rewrite bool_decide_eq_false_2 by done. by rewrite bool_decide_eq_true_2.
  - rewrite bool_decide_eq_true_2 by done. rewrite bool_decide_eq_false_2; [done | by intros []].
Qed.

(** An identity is excluded exactly when the map holds a registration for
    it; a key held with a nil marker reads as a key that is not held. *)
Lemma excluded_marker (ignoreEndpoints : ExclusionSet) (k : EndpointNSMName) :
  excluded ignoreEndpoints k = true ↔ ∃ r, ignoreEndpoints !! k = Some (Some r).
Proof.
  unfold excluded, index. rewrite bool_decide_eq_true.
  destruct (ignoreEndpoints !! k) as [[r |] |]; cbn; split;
    try done; try (intros [r' [=]]; done); eauto.
Qed.

(** C1.  A request that pins an endpoint name and a manager name equal to
    this node's own manager name is answered from local state alone: the
    only calls are the two to the model.  The stored registration is
    returned when the endpoint is found and its identity is not excluded;
    when it is found but excluded, or not found, the result is a NotFound
    error.  Discovery is not called. *)
Theorem GetEndpoint_pinned_local
    {S : Type} (h : handler S) (s s1 s2 : S) (ctx : Context)
    (requestConnection : Connection) (ignoreEndpoints : ExclusionSet)
    (nsm : option NetworkServiceManager) (found : option Endpoint) :
  GetNetworkServiceEndpointName requestConnection ≠ "" →
  GetDestinationNetworkServiceManagerName requestConnection ≠ "" →
  h _ Model_GetNsm s = (nsm, s1) →
  NetworkServiceManager_GetName nsm
    = GetDestinationNetworkServiceManagerName requestConnection →
  h _ (Model_GetEndpoint (GetNetworkServiceEndpointName requestConnection)) s1
    = (found, s2) →
  ∃ out tr,
    run h (GetEndpoint' ctx requestConnection ignoreEndpoints) s = (out, s2, tr)
    ∧ tr = [Ev Model_GetNsm nsm;
            Ev (Model_GetEndpoint (GetNetworkServiceEndpointName requestConnection)) found]
    ∧ Forall (λ e, is_discovery e = false) tr
    ∧ match found with
      | Some endpoint =>
          if excluded ignoreEndpoints (GetEndpointNSMName (ep_Endpoint endpoint))
          then ∃ err, out = (None, Some err, ignoreEndpoints) ∧ NotFound err = true
          else out = (ep_Endpoint endpoint, None, ignoreEndpoints)
      | None => ∃ err, out = (None, Some err, ignoreEndpoints) ∧ NotFound err = true
      end.
Proof.
  intros Hep Hmgr Hnsm Hself Hget.
  unfold GetEndpoint. cbn -[String.length Nat.ltb].
  rewrite Hnsm, Hself.
  rewrite !length_pos_nonempty by done.
  rewrite bool_decide_eq_true_2 by done. cbn -[String.length Nat.ltb].
  rewrite Hget.
  destruct found as [endpoint|]; cbn.
  - rewrite excluded_index.
    destruct (excluded ignoreEndpoints _); cbn; eexists _, _;
      (split; [reflexivity|]); (split; [reflexivity|]);
      (split; [by repeat constructor|]); eauto.
  - eexists _, _; (split; [reflexivity|]); (split; [reflexivity|]);
      (split; [by repeat constructor|]); eauto.
Qed.

(** *** The two scans of the candidate list *)

Lemma getTargetEndpoint_first (before after : list NetworkServiceEndpoint)
    (candidate : NetworkServiceEndpoint) (targetEndpoint targetNSManager : string) :
  Forall (λ e, nse_Name e ≠ targetEndpoint) before →
  nse_Name candidate = targetEndpoint →
  getTargetEndpoint (before ++ candidate :: after) targetEndpoint targetNSManager
    = Some candidate.
Proof.
  intros Hbefore Hname. induction Hbefore as [| e before He _ IH]; cbn.
  - by rewrite bool_decide_eq_true_2.
  - by rewrite bool_decide_eq_false_2.
Qed.

Lemma getTargetEndpoint_none (endpoints : list NetworkServiceEndpoint)
    (targetEndpoint targetNSManager : string) :
  Forall (λ e, nse_Name e ≠ targetEndpoint) endpoints →
  getTargetEndpoint endpoints targetEndpoint targetNSManager = None.
Proof.
  induction 1 as [| e endpoints He _ IH]; cbn; [done |].
  by rewrite bool_decide_eq_false_2.
Qed.

Lemma filterEndpoints_filter (endpoints : list NetworkServiceEndpoint)
    (managers : gmap string NetworkServiceManager) (ignoreEndpoints : ExclusionSet) :
  filterEndpoints NewEndpointNSMName endpoints managers ignoreEndpoints
    = List.filter
        (λ c, negb (excluded ignoreEndpoints (identity managers c)))
        endpoints.
Proof.
  induction endpoints as [| c endpoints IH]; cbn; [done |].
  unfold candidate_identity at 1. rewrite <- excluded_index, IH.
  by destruct (bool_decide _).
Qed.

Lemma filterEndpoints_not_excluded (endpoints : list NetworkServiceEndpoint)
    (managers : gmap string NetworkServiceManager) (ignoreEndpoints : ExclusionSet) :
  Forall (λ c, excluded ignoreEndpoints (identity managers c) = false)
    (filterEndpoints NewEndpointNSMName endpoints managers ignoreEndpoints).
Proof.
  rewrite filterEndpoints_filter. apply List.Forall_forall.
  intros c [_ Hc]%List.filter_In. by apply negb_true_iff.
Qed.

(** *** Resolution through discovery *)

(** The pinned-local branch is left aside when no manager is pinned or the
    pinned manager is not this node's. *)
Lemma pinned_local_not_taken (targetEndpoint targetNsemName myNsemName : string) :
  targetNsemName = "" ∨ myNsemName ≠ targetNsemName →
  (0 <? String.length targetEndpoint)
  && ((0 <? String.length targetNsemName)
      && bool_decide (myNsemName = targetNsemName)) = false.
Proof.
  intros [-> | Hne].
  - by rewrite andb_false_r.
  - rewrite bool_decide_eq_false_2 by done. by rewrite !andb_false_r.
Qed.

Lemma GetEndpoint_pinned_discovery
    {S : Type} (h : handler S) (s s1 s2 s3 : S) (ctx : Context)
    (requestConnection : Connection) (ignoreEndpoints : ExclusionSet)
    (nsm : option NetworkServiceManager) (dc : NetworkServiceDiscoveryClient)
    (endpointResponse : FindNetworkServiceResponse) :
  let targetEndpoint := GetNetworkServiceEndpointName requestConnection in
  let targetNsemName := GetDestinationNetworkServiceManagerName requestConnection in
  let nseRequest := {| req_NetworkServiceName := GetNetworkService requestConnection |} in
  targetEndpoint ≠ "" →
  targetNsemName = "" ∨ NetworkServiceManager_GetName nsm ≠ targetNsemName →
  h _ Model_GetNsm s = (nsm, s1) →
  h _ (ServiceRegistry_DiscoveryClient ctx) s1 = (Done dc, s2) →
  h _ (DiscoveryClient_FindNetworkService dc ctx nseRequest) s2
    = (Done endpointResponse, s3) →
  run h (GetEndpoint' ctx requestConnection ignoreEndpoints) s =
    (match getTargetEndpoint (resp_NetworkServiceEndpoints endpointResponse)
             targetEndpoint targetNsemName with
     | Some endpoint =>
         (Some (registration_of endpointResponse endpoint), None, ignoreEndpoints)
     | None =>
         (None,
          Some (ErrTargetedNSE targetEndpoint targetNsemName
                  (GetNetworkService requestConnection)
                  (length (resp_NetworkServiceEndpoints endpointResponse))),
          ignoreEndpoints)
     end, s3,
     [Ev Model_GetNsm nsm;
      Ev (ServiceRegistry_DiscoveryClient ctx) (Done dc);
      Ev (DiscoveryClient_FindNetworkService dc ctx nseRequest) (Done endpointResponse)]).
Proof.
  intros targetEndpoint targetNsemName nseRequest Hep Hmgr Hnsm Hdc Hfind.
  unfold GetEndpoint. cbn -[String.length Nat.ltb].
  rewrite Hnsm. fold targetEndpoint targetNsemName.
  rewrite pinned_local_not_taken by done. cbn -[String.length Nat.ltb].
  rewrite Hdc. cbn -[String.length Nat.ltb].
  fold nseRequest. rewrite Hfind.
  rewrite length_pos_nonempty by done.
  by destruct (getTargetEndpoint _ _ _).
Qed.

(** C5.  When an endpoint name is pinned and the pinned-local branch is
    not taken, a successful discovery query is answered with the first
    candidate of the response that bears the pinned name, whatever its
    manager, bundled with the manager the response gives for the
    candidate's manager name and with the response's network service.
    When no candidate bears the name the result is a NotFound error that
    carries the number of candidates of the response. *)
Theorem GetEndpoint_pinned_anywhere
    {S : Type} (h : handler S) (s s1 s2 s3 : S) (ctx : Context)
    (requestConnection : Connection) (ignoreEndpoints : ExclusionSet)
    (nsm : option NetworkServiceManager) (dc : NetworkServiceDiscoveryClient)
    (endpointResponse : FindNetworkServiceResponse) :
  let targetEndpoint := GetNetworkServiceEndpointName requestConnection in
  let targetNsemName := GetDestinationNetworkServiceManagerName requestConnection in
  let nseRequest := {| req_NetworkServiceName := GetNetworkService requestConnection |} in
  let endpoints := resp_NetworkServiceEndpoints endpointResponse in
  targetEndpoint ≠ "" →
  targetNsemName = "" ∨ NetworkServiceManager_GetName nsm ≠ targetNsemName →
  h _ Model_GetNsm s = (nsm, s1) →
  h _ (ServiceRegistry_DiscoveryClient ctx) s1 = (Done dc, s2) →
  h _ (DiscoveryClient_FindNetworkService dc ctx nseRequest) s2
    = (Done endpointResponse, s3) →
  ∃ out tr,
    run h (GetEndpoint' ctx requestConnection ignoreEndpoints) s = (out, s3, tr)
    ∧ (∀ before candidate after,
         endpoints = before ++ candidate :: after →
         Forall (λ e, nse_Name e ≠ targetEndpoint) before →
         nse_Name candidate = targetEndpoint →
         out = (Some {| reg_NetworkService := resp_NetworkService endpointResponse;
                        reg_NetworkServiceManager :=
                          resp_NetworkServiceManagers endpointResponse
                            !! nse_NetworkServiceManagerName candidate;
                        reg_NetworkServiceEndpoint := Some candidate |},
                None, ignoreEndpoints))
    ∧ (Forall (λ e, nse_Name e ≠ targetEndpoint) endpoints →
       ∃ err, out = (None, Some err, ignoreEndpoints)
              ∧ NotFound err = true
              ∧ err = ErrTargetedNSE targetEndpoint targetNsemName
                        (GetNetworkService requestConnection) (length endpoints)).
Proof.
  intros targetEndpoint targetNsemName nseRequest endpoints Hep Hmgr Hnsm Hdc Hfind.
  eexists _, _. split.
  { by apply (GetEndpoint_pinned_discovery h s s1 s2 s3). }
  fold targetEndpoint targetNsemName endpoints. split.
  - intros before candidate after -> Hbefore Hname.
    by rewrite getTargetEndpoint_first.
  - intros Hnone. rewrite getTargetEndpoint_none by done. eauto.
Qed.

(** C10.  In the same branch the exclusion map plays no part: the first
    candidate bearing the pinned name is returned although the map holds
    a marker for its identity, and any other exclusion map gives the same
    registration, the same error and the same calls. *)
Theorem GetEndpoint_pinned_ignores_exclusions
    {S : Type} (h : handler S) (s s1 s2 s3 : S) (ctx : Context)
    (requestConnection : Connection) (ignoreEndpoints : ExclusionSet)
    (nsm : option NetworkServiceManager) (dc : NetworkServiceDiscoveryClient)
    (endpointResponse : FindNetworkServiceResponse)
    (before after : list NetworkServiceEndpoint) (candidate : NetworkServiceEndpoint) :
  let targetEndpoint := GetNetworkServiceEndpointName requestConnection in
  let targetNsemName := GetDestinationNetworkServiceManagerName requestConnection in
  let nseRequest := {| req_NetworkServiceName := GetNetworkService requestConnection |} in
  targetEndpoint ≠ "" →
  targetNsemName = "" ∨ NetworkServiceManager_GetName nsm ≠ targetNsemName →
  h _ Model_GetNsm s = (nsm, s1) →
  h _ (ServiceRegistry_DiscoveryClient ctx) s1 = (Done dc, s2) →
  h _ (DiscoveryClient_FindNetworkService dc ctx nseRequest) s2
    = (Done endpointResponse, s3) →
  resp_NetworkServiceEndpoints endpointResponse = before ++ candidate :: after →
  Forall (λ e, nse_Name e ≠ targetEndpoint) before →
  nse_Name candidate = targetEndpoint →
  excluded ignoreEndpoints
    (identity (resp_NetworkServiceManagers endpointResponse) candidate) = true →
  (run h (GetEndpoint' ctx requestConnection ignoreEndpoints) s).1.1
    = (Some (registration_of endpointResponse candidate), None, ignoreEndpoints)
  ∧ ∀ others : ExclusionSet,
      let with_ignored := run h (GetEndpoint' ctx requestConnection ignoreEndpoints) s in
      let with_others := run h (GetEndpoint' ctx requestConnection others) s in
      with_others.1.1.1 = with_ignored.1.1.1 ∧ with_others.2 = with_ignored.2.
Proof.
  intros targetEndpoint targetNsemName nseRequest Hep Hmgr Hnsm Hdc Hfind Hsplit
    Hbefore Hname _.
  assert (∀ m : ExclusionSet,
            run h (GetEndpoint' ctx requestConnection m) s
            = ((Some (registration_of endpointResponse candidate), None, m), s3,
               [Ev Model_GetNsm nsm;
                Ev (ServiceRegistry_DiscoveryClient ctx) (Done dc);
                Ev (DiscoveryClient_FindNetworkService dc ctx nseRequest)
                  (Done endpointResponse)])) as Hrun.
  { intros m.
    rewrite (GetEndpoint_pinned_discovery h s s1 s2 s3 ctx requestConnection m nsm dc
               endpointResponse) by done.
    fold targetEndpoint targetNsemName. rewrite Hsplit.
    by rewrite getTargetEndpoint_first. }
  split; [by rewrite Hrun |]. intros others. cbn zeta. by rewrite !Hrun.
Qed.

(** C2.  With no endpoint name pinned, the candidates are those of the
    discovery response that [filterEndpoints] keeps, and none of them has
    an excluded identity (the candidate with the manager the response
    reports for it).  When no candidate is left the result is a NotFound
    error and the selector is not called; otherwise the selector is called
    once, with exactly these candidates, and when it returns no endpoint
    the result is a NotFound error. *)
Theorem GetEndpoint_open_selection
    {S : Type} (h : handler S) (s s1 s2 s3 : S) (ctx : Context)
    (requestConnection : Connection) (ignoreEndpoints : ExclusionSet)
    (nsm : option NetworkServiceManager) (dc : NetworkServiceDiscoveryClient)
    (endpointResponse : FindNetworkServiceResponse) :
  let nseRequest := {| req_NetworkServiceName := GetNetworkService requestConnection |} in
  let managers := resp_NetworkServiceManagers endpointResponse in
  let candidates :=
    filterEndpoints NewEndpointNSMName (resp_NetworkServiceEndpoints endpointResponse)
      managers ignoreEndpoints in
  GetNetworkServiceEndpointName requestConnection = "" →
  h _ Model_GetNsm s = (nsm, s1) →
  h _ (ServiceRegistry_DiscoveryClient ctx) s1 = (Done dc, s2) →
  h _ (DiscoveryClient_FindNetworkService dc ctx nseRequest) s2
    = (Done endpointResponse, s3) →
  Forall (λ c, excluded ignoreEndpoints (identity managers c) = false) candidates
  ∧ (candidates = [] →
     ∃ err tr,
       run h (GetEndpoint' ctx requestConnection ignoreEndpoints) s
         = ((None, Some err, ignoreEndpoints), s3, tr)
       ∧ NotFound err = true
       ∧ Forall (λ e, is_select e = false) tr)
  ∧ (candidates ≠ [] →
     ∀ (selector : Selector) (s4 s5 : S) (chosen : option NetworkServiceEndpoint),
       h _ Model_GetSelector s3 = (selector, s4) →
       h _ (Selector_SelectEndpoint selector requestConnection
              (resp_NetworkService endpointResponse) candidates) s4 = (chosen, s5) →
       ∃ out tr,
         run h (GetEndpoint' ctx requestConnection ignoreEndpoints) s = (out, s5, tr)
         ∧ omap selector_candidates tr = [candidates]
         ∧ match chosen with
           | Some endpoint =>
               out = (Some (registration_of endpointResponse endpoint), None,
                      ignoreEndpoints)
           | None =>
               ∃ err, out = (None, Some err, ignoreEndpoints) ∧ NotFound err = true
           end).
Proof.
  intros nseRequest managers candidates Hep Hnsm Hdc Hfind.
  split; [apply filterEndpoints_not_excluded |].
  unfold GetEndpoint. cbn -[String.length Nat.ltb].
  rewrite Hnsm, Hep. cbn. rewrite Hdc. cbn. fold nseRequest. rewrite Hfind.
  fold managers candidates. split.
  - intros ->. cbn. eexists _, _. split; [reflexivity |].
    split; [reflexivity | by repeat constructor].
  - intros Hne. intros selector s4 s5 chosen Hsel Hchosen.
    rewrite bool_decide_eq_false_2 by (by destruct candidates).
    cbn. rewrite Hsel. cbn. rewrite Hchosen.
    destruct chosen as [endpoint |]; cbn; eexists _, _;
      (split; [reflexivity |]); (split; [reflexivity |]); eauto.
Qed.

(** C8.  A registration returned after a discovery query carries, as its
    manager, the entry that the most recent discovery response holds for
    the manager name of the registration's endpoint. *)
Theorem GetEndpoint_manager_of_response
    {S : Type} (h : handler S) (s s' : S) (ctx : Context)
    (requestConnection : Connection) (ignoreEndpoints ignoreEndpoints' : ExclusionSet)
    (registration : NSERegistration) (tr : list event)
    (endpointResponse : FindNetworkServiceResponse) :
  run h (GetEndpoint' ctx requestConnection ignoreEndpoints) s
    = ((Some registration, None, ignoreEndpoints'), s', tr) →
  last_response tr = Some endpointResponse →
  reg_NetworkServiceManager registration
    = resp_NetworkServiceManagers endpointResponse
        !! NetworkServiceEndpoint_GetNetworkServiceManagerName
             (reg_NetworkServiceEndpoint registration).
Proof.
  unfold GetEndpoint. answers; intros Hrun Hlast; simplify_eq; cbn in Hlast; by simplify_eq.
Qed.

(** C9.  Whatever the request, the exclusion map and the collaborators'
    answers, the exclusion map holds after [GetEndpoint] what it held
    before. *)
Theorem GetEndpoint_exclusions_unchanged
    {S : Type} (h : handler S) (s : S) (ctx : Context)
    (requestConnection : Connection) (ignoreEndpoints : ExclusionSet) :
  (run h (GetEndpoint' ctx requestConnection ignoreEndpoints) s).1.1.2 = ignoreEndpoints.
Proof.
  unfold GetEndpoint. by answers.
Qed.

End ResolverFacts.

(** ** The establisher *)

(** C3, as the code has it.  [CreateNSEClient] takes the local path exactly
    when the manager name carried by the registration's endpoint is this
    node's manager name, and the remote path otherwise; the remote
    connection is then opened once, under the span's context bounded by
    [HealRequestConnectTimeout]. *)
Theorem CreateNSEClient_dispatch
    {S : Type} (h : handler S) (s : S) (nsem : nseManager) (ctx : Context)
    (endpoint : option NSERegistration) :
  let self := (h _ Model_GetNsm s).1 in
  let owner :=
    NetworkServiceEndpoint_GetNetworkServiceManagerName
      (GetNetworkServiceEndpoint endpoint) in
  let tr := (run h (CreateNSEClient nsem ctx endpoint) s).2 in
  (local_path tr = true ↔ NetworkServiceManager_GetName self = owner)
  ∧ (remote_path tr = true ↔ NetworkServiceManager_GetName self ≠ owner)
  ∧ (NetworkServiceManager_GetName self ≠ owner →
     omap remote_open_context tr
       = [WithTimeout (ctx_span ctx "createNSEClient")
            (HealRequestConnectTimeout (props nsem))]).
Proof.
  unfold CreateNSEClient, IsLocalEndpoint, cleanupNSE. cbn.
  destruct (h _ Model_GetNsm s) as [nsm s1] eqn:Hnsm. cbn.
  case_bool_decide as Hown; cbn; answers; cbn; intuition (done || congruence).
Qed.

(** C3, as the claim has it, fails: for a registration whose manager is a
    peer and whose endpoint names this node's manager, the local path is
    taken. *)
Lemma CreateNSEClient_dispatch_not_by_manager :
  let tr := (run world (CreateNSEClient manager_1 (ctx_caller 0) (Some reg_mixed))
               world_1).2 in
  ¬ (local_path tr = true
     ↔ NetworkServiceManager_GetName (GetNetworkServiceManager (Some reg_mixed))
       = NetworkServiceManager_GetName (w_nsm world_1)).
Proof.
  cbn zeta. intros [Hlocal _].
  assert (nsm_Name mgr_peer = nsm_Name mgr_self) as Heq by (apply Hlocal; reflexivity).
  discriminate Heq.
Qed.

(** C4.  On the local path, when local state holds no endpoint of that
    name the result is a NotFound error and nothing is evicted; when the
    endpoint is there and the local connection cannot be opened, the
    model is asked once to delete the endpoint by its name, and the error
    of the transport is the error returned. *)
Theorem CreateNSEClient_local_failure
    {S : Type} (h : handler S) (s s1 s2 : S) (nsem : nseManager) (ctx : Context)
    (endpoint : option NSERegistration) (nsm : option NetworkServiceManager)
    (found : option Endpoint) :
  h _ Model_GetNsm s = (nsm, s1) →
  NetworkServiceManager_GetName nsm
    = NetworkServiceEndpoint_GetNetworkServiceManagerName
        (GetNetworkServiceEndpoint endpoint) →
  h _ (Model_GetEndpoint
         (NetworkServiceEndpoint_GetName (GetNetworkServiceEndpoint endpoint))) s1
    = (found, s2) →
  match found with
  | None =>
      ∃ err tr,
        run h (CreateNSEClient nsem ctx endpoint) s = ((None, Some err), s2, tr)
        ∧ NotFound err = true
        ∧ List.filter is_delete tr = []
  | Some modelEp =>
      ∀ (err : error) (s3 s4 : S) (u : unit),
        h _ (ServiceRegistry_EndpointConnection (ctx_span ctx "createNSEClient") modelEp) s2
          = (Failed err, s3) →
        h _ (Model_DeleteEndpoint ctx (EndpointName modelEp)) s3 = (u, s4) →
        ∃ tr,
          run h (CreateNSEClient nsem ctx endpoint) s = ((None, Some err), s4, tr)
          ∧ List.filter is_delete tr
            = [Ev (Model_DeleteEndpoint ctx (EndpointName modelEp)) u]
  end.
Proof.
  intros Hnsm Hown Hget.
  unfold CreateNSEClient, IsLocalEndpoint, cleanupNSE. cbn.
  rewrite Hnsm. cbn. rewrite bool_decide_eq_true_2 by done. cbn. rewrite Hget.
  destruct found as [modelEp |]; cbn.
  - intros err s3 s4 u Hopen Hdel. rewrite Hopen. cbn. rewrite Hdel. cbn. eauto.
  - eexists _, _. eauto.
Qed.

(** C7.  On the remote path the connection is opened under the span's
    context bounded by [HealRequestConnectTimeout], and that context is
    cancelled once the call has returned, whatever it returned.  An error
    of the transport is returned as it is, and the model is not asked to
    delete anything. *)
Theorem CreateNSEClient_remote
    {S : Type} (h : handler S) (s s1 s2 s3 : S) (nsem : nseManager) (ctx : Context)
    (endpoint : option NSERegistration) (nsm : option NetworkServiceManager)
    (opened : reply (TransportClient * ClientConn)) (u : unit) :
  let bounded :=
    WithTimeout (ctx_span ctx "createNSEClient")
      (HealRequestConnectTimeout (props nsem)) in
  h _ Model_GetNsm s = (nsm, s1) →
  NetworkServiceManager_GetName nsm
    ≠ NetworkServiceEndpoint_GetNetworkServiceManagerName
        (GetNetworkServiceEndpoint endpoint) →
  h _ (ServiceRegistry_RemoteNetworkServiceClient bounded
         (GetNetworkServiceManager endpoint)) s1 = (opened, s2) →
  h _ (Context_cancel bounded) s2 = (u, s3) →
  ∃ out tr,
    run h (CreateNSEClient nsem ctx endpoint) s = (out, s3, tr)
    ∧ tr = [Ev Model_GetNsm nsm;
            Ev (ServiceRegistry_RemoteNetworkServiceClient bounded
                  (GetNetworkServiceManager endpoint)) opened;
            Ev (Context_cancel bounded) u]
    ∧ List.filter is_delete tr = []
    ∧ match opened with
      | Failed err => out = (None, Some err)
      | Done (client, conn) => out = (Some (nsmClient client conn), None)
      end.
Proof.
  intros bounded Hnsm Hown Hopen Hcancel.
  unfold CreateNSEClient, IsLocalEndpoint. cbn.
  rewrite Hnsm. cbn. rewrite bool_decide_eq_false_2 by done. cbn.
  fold bounded. rewrite Hopen. cbn. rewrite Hcancel.
  destruct opened as [[client conn] | err]; cbn; eexists _, _; eauto.
Qed.

(** ** The prober *)

Lemma bounded_by_refl (root : Context) : bounded_by root root = true.
Proof. destruct root; cbn; by rewrite bool_decide_eq_true_2. Qed.

Lemma bounded_by_span (root c : Context) (operation : string) :
  bounded_by root c = true → bounded_by root (ctx_span c operation) = true.
Proof. intros Hc. cbn. rewrite Hc. apply orb_true_r. Qed.

Lemma bounded_by_timeout (root c : Context) (timeout : Duration) :
  bounded_by root c = true → bounded_by root (WithTimeout c timeout) = true.
Proof. intros Hc. cbn. rewrite Hc. apply orb_true_r. Qed.

(** Every call of [CreateNSEClient] that takes a context is made under the
    context it was given or under one derived from it. *)
Lemma CreateNSEClient_bounded
    {S : Type} (h : handler S) (s : S) (nsem : nseManager) (ctx : Context)
    (endpoint : option NSERegistration) :
  all_bounded_by ctx (run h (CreateNSEClient nsem ctx endpoint) s).2.
Proof.
  pose proof (bounded_by_refl ctx) as Hctx.
  pose proof (bounded_by_span ctx ctx "createNSEClient" Hctx) as Hspan.
  pose proof (bounded_by_timeout ctx _ (HealRequestConnectTimeout (props nsem)) Hspan)
    as Htimeout.
  unfold all_bounded_by, CreateNSEClient, IsLocalEndpoint, cleanupNSE.
  answers; by repeat constructor.
Qed.

(** C6.  [CheckUpdateNSE] establishes under the caller's context bounded by
    [HealRequestConnectCheckTimeout], and every call made on the way is
    under that context or one derived from it.  It returns a boolean
    only.  When the establishment gives a client, the client is cleaned
    up at once, the answer of the clean-up is dropped and the result is
    [true]; when it gives an error the result is [false].  Either way the
    bounded context is cancelled last. *)
Theorem CheckUpdateNSE_probe
    {S : Type} (h : handler S) (s s1 : S) (nsem : nseManager) (ctx : Context)
    (reg : option NSERegistration)
    (created : option NetworkServiceClient * option error) (tr1 : list event) :
  let pingCtx := WithTimeout ctx (HealRequestConnectCheckTimeout (props nsem)) in
  run h (CreateNSEClient nsem pingCtx reg) s = (created, s1, tr1) →
  ∃ (alive : bool) (s2 : S) (tr2 : list event),
    run h (CheckUpdateNSE nsem ctx reg) s = (alive, s2, tr1 ++ tr2)
    ∧ all_bounded_by pingCtx (tr1 ++ tr2)
    ∧ (∀ client err, created = (client, Some err) → alive = false)
    ∧ match created with
      | (Some client, None) =>
          alive = true
          ∧ ∃ released u,
              tr2 = [Ev (Client_Cleanup client) released; Ev (Context_cancel pingCtx) u]
      | _ => alive = false ∧ ∃ u, tr2 = [Ev (Context_cancel pingCtx) u]
      end.
Proof.
  intros pingCtx Hrun. unfold CheckUpdateNSE. fold pingCtx.
  rewrite run_bind, Hrun.
  pose proof (CreateNSEClient_bounded h s nsem pingCtx reg) as Hbounded.
  rewrite Hrun in Hbounded. cbn in Hbounded.
  pose proof (bounded_by_refl pingCtx) as Hping.
  destruct created as [[client |] [err |]]; answers;
    eexists _, _, _; (split; [reflexivity |]);
    (split; [apply Forall_app; split; [done | by repeat constructor] |]);
    split; try (intros ? ? [=]; done); eauto.
Qed.

(** ** The theorems at work in the sample worlds *)

(** The endpoint pinned at this node is held locally and not excluded. *)
Lemma GetEndpoint_pinned_local_witness :
  ∃ out tr,
    run world (resolve (ctx_caller 0) request_pinned_local ignore_b) world_1
      = (out, world_1, tr)
    ∧ tr = [Ev Model_GetNsm (Some mgr_self); Ev (Model_GetEndpoint "ep-a") (Some local_a)]
    ∧ Forall (λ e, is_discovery e = false) tr
    ∧ out = (Some reg_a, None, ignore_b).
Proof.
  exact (GetEndpoint_pinned_local pair_NewEndpointNSMName pair_GetEndpointNSMName
           world world_1 world_1 world_1 (ctx_caller 0) request_pinned_local ignore_b
           (Some mgr_self) (Some local_a)
           ltac:(done) ltac:(done) eq_refl eq_refl eq_refl).
Defined.

(** Of two candidates one is excluded; the selector sees the other. *)
Lemma GetEndpoint_open_selection_witness :
  ∃ out tr,
    run world (resolve (ctx_caller 0) request_open ignore_a) world_1 = (out, world_1, tr)
    ∧ omap selector_candidates tr = [[nse_b]]
    ∧ out = (Some reg_b, None, ignore_a).
Proof.
  destruct (GetEndpoint_open_selection pair_NewEndpointNSMName pair_GetEndpointNSMName
              world world_1 world_1 world_1 world_1 (ctx_caller 0) request_open ignore_a
              (Some mgr_self) 0 response_ab eq_refl eq_refl eq_refl eq_refl)
    as (_ & _ & Hselect).
  exact (Hselect ltac:(done) 0 world_1 world_1 (Some nse_b) eq_refl eq_refl).
Defined.

(** The pinned endpoint is the second candidate of the response. *)
Lemma GetEndpoint_pinned_anywhere_witness :
  (run world (resolve (ctx_caller 0) request_pinned_b ignore_a) world_1).1.1
    = (Some reg_b, None, ignore_a).
Proof.
  destruct (GetEndpoint_pinned_anywhere pair_NewEndpointNSMName pair_GetEndpointNSMName
              world world_1 world_1 world_1 world_1 (ctx_caller 0) request_pinned_b
              ignore_a (Some mgr_self) 0 response_ab
              ltac:(done) (or_introl eq_refl) eq_refl eq_refl eq_refl)
    as (out & tr & Hrun & Hfirst & _).
  unfold resolve. rewrite Hrun.
  exact (Hfirst [nse_a] nse_b [] eq_refl
           ltac:(by repeat constructor) eq_refl).
Defined.

(** The pinned endpoint is returned although it is excluded. *)
Lemma GetEndpoint_pinned_ignores_exclusions_witness :
  (run world (resolve (ctx_caller 0) request_pinned_b ignore_b) world_1).1.1
    = (Some reg_b, None, ignore_b)
  ∧ ∀ others : gmap (string * string) (option NSERegistration),
      (run world (resolve (ctx_caller 0) request_pinned_b others) world_1).1.1.1
        = (run world (resolve (ctx_caller 0) request_pinned_b ignore_b) world_1).1.1.1
      ∧ (run world (resolve (ctx_caller 0) request_pinned_b others) world_1).2
        = (run world (resolve (ctx_caller 0) request_pinned_b ignore_b) world_1).2.
Proof.
  exact (GetEndpoint_pinned_ignores_exclusions
           pair_NewEndpointNSMName pair_GetEndpointNSMName
           world world_1 world_1 world_1 world_1 (ctx_caller 0) request_pinned_b
           ignore_b (Some mgr_self) 0 response_ab [nse_a] [] nse_b
           ltac:(done) (or_introl eq_refl) eq_refl eq_refl eq_refl eq_refl
           ltac:(by repeat constructor) eq_refl eq_refl).
Defined.

(** The manager of the registration chosen in the open selection above. *)
Lemma GetEndpoint_manager_of_response_witness :
  reg_NetworkServiceManager reg_b = resp_NetworkServiceManagers response_ab !! "nsm-2".
Proof.
  exact (GetEndpoint_manager_of_response pair_NewEndpointNSMName pair_GetEndpointNSMName
           world world_1 world_1 (ctx_caller 0) request_open ignore_a ignore_a reg_b
           [Ev Model_GetNsm (Some mgr_self);
            Ev (ServiceRegistry_DiscoveryClient (ctx_caller 0)) (Done 0);
            Ev (DiscoveryClient_FindNetworkService 0 (ctx_caller 0)
                  {| req_NetworkServiceName := "icmp" |}) (Done response_ab);
            Ev Model_GetSelector 0;
            Ev (Selector_SelectEndpoint 0 request_open (Some svc) [nse_b]) (Some nse_b)]
           response_ab GetEndpoint_world_1 eq_refl).
Defined.

(** An endpoint of this node goes the local way, one of the peer the remote way. *)
Lemma CreateNSEClient_dispatch_witness :
  local_path (run world (CreateNSEClient manager_1 (ctx_caller 0) (Some reg_a)) world_1).2
    = true
  ∧ omap remote_open_context
      (run world (CreateNSEClient manager_1 (ctx_caller 0) (Some reg_b)) world_1).2
    = [WithTimeout (ctx_span (ctx_caller 0) "createNSEClient") 15000000000%Z].
Proof.
  split.
  - apply (CreateNSEClient_dispatch world world_1 manager_1 (ctx_caller 0) (Some reg_a)).
    reflexivity.
  - apply (CreateNSEClient_dispatch world world_1 manager_1 (ctx_caller 0) (Some reg_b)).
    done.
Defined.

(** The local endpoint refuses the connection and is evicted; in a world
    without local endpoints nothing is evicted. *)
Lemma CreateNSEClient_local_failure_witness :
  (∃ tr,
     run world (CreateNSEClient manager_1 (ctx_caller 0) (Some reg_a)) world_1
       = ((None, Some (ErrCollaborator "connection refused")),
          delete_endpoint "ep-a" world_1, tr)
     ∧ List.filter is_delete tr = [Ev (Model_DeleteEndpoint (ctx_caller 0) "ep-a") tt])
  ∧ (∃ err tr,
       run world (CreateNSEClient manager_1 (ctx_caller 0) (Some reg_a)) world_2
         = ((None, Some err), world_2, tr)
       ∧ NotFound err = true
       ∧ List.filter is_delete tr = []).
Proof.
  split.
  - exact (CreateNSEClient_local_failure world world_1 world_1 world_1 manager_1
             (ctx_caller 0) (Some reg_a) (Some mgr_self) (Some local_a)
             eq_refl eq_refl eq_refl
             (ErrCollaborator "connection refused") world_1
             (delete_endpoint "ep-a" world_1) tt eq_refl eq_refl).
  - exact (CreateNSEClient_local_failure world world_2 world_2 world_2 manager_1
             (ctx_caller 0) (Some reg_a) (Some mgr_self) None
             eq_refl eq_refl eq_refl).
Defined.

(** The peer does not answer in time; nothing is evicted. *)
Lemma CreateNSEClient_remote_witness :
  ∃ out tr,
    run world (CreateNSEClient manager_1 (ctx_caller 0) (Some reg_b)) world_2
      = (out, world_2, tr)
    ∧ tr = [Ev Model_GetNsm (Some mgr_self);
            Ev (ServiceRegistry_RemoteNetworkServiceClient
                  (WithTimeout (ctx_span (ctx_caller 0) "createNSEClient") 15000000000%Z)
                  (Some mgr_peer))
               (Failed (ErrCollaborator "deadline exceeded"));
            Ev (Context_cancel
                  (WithTimeout (ctx_span (ctx_caller 0) "createNSEClient") 15000000000%Z))
               tt]
    ∧ List.filter is_delete tr = []
    ∧ out = (None, Some (ErrCollaborator "deadline exceeded")).
Proof.
  exact (CreateNSEClient_remote world world_2 world_2 world_2 world_2 manager_1
           (ctx_caller 0) (Some reg_b) (Some mgr_self)
           (Failed (ErrCollaborator "deadline exceeded")) tt
           eq_refl ltac:(done) eq_refl eq_refl).
Defined.

(** The peer answers; the clean-up fails and the probe is [true] all the same. *)
Lemma CheckUpdateNSE_probe_witness :
  ∃ (alive : bool) (s2 : World) (tr2 : list event),
    run world (CheckUpdateNSE manager_1 (ctx_caller 0) (Some reg_b)) world_1
      = (alive, s2,
         [Ev Model_GetNsm (Some mgr_self);
          Ev (ServiceRegistry_RemoteNetworkServiceClient
                (WithTimeout
                   (ctx_span (WithTimeout (ctx_caller 0) 1000000000%Z) "createNSEClient")
                   15000000000%Z)
                (Some mgr_peer)) (Done (7, 8));
          Ev (Context_cancel
                (WithTimeout
                   (ctx_span (WithTimeout (ctx_caller 0) 1000000000%Z) "createNSEClient")
                   15000000000%Z)) tt] ++ tr2)
    ∧ all_bounded_by (WithTimeout (ctx_caller 0) 1000000000%Z)
        ([Ev Model_GetNsm (Some mgr_self);
          Ev (ServiceRegistry_RemoteNetworkServiceClient
                (WithTimeout
                   (ctx_span (WithTimeout (ctx_caller 0) 1000000000%Z) "createNSEClient")
                   15000000000%Z)
                (Some mgr_peer)) (Done (7, 8));
          Ev (Context_cancel
                (WithTimeout
                   (ctx_span (WithTimeout (ctx_caller 0) 1000000000%Z) "createNSEClient")
                   15000000000%Z)) tt] ++ tr2)
    ∧ (∀ client err, (Some (nsmClient 7 8), @None error) = (client, Some err) → alive = false)
    ∧ alive = true
    ∧ ∃ released u,
        tr2 = [Ev (Client_Cleanup (nsmClient 7 8)) released;
               Ev (Context_cancel (WithTimeout (ctx_caller 0) 1000000000%Z)) u].
Proof.
  exact (CheckUpdateNSE_probe world world_1 world_1 manager_1 (ctx_caller 0)
           (Some reg_b) (Some (nsmClient 7 8), None) _ eq_refl).
Defined.

(** * Further properties of the resolver *)

Lemma getTargetEndpoint_Some (endpoints : list NetworkServiceEndpoint)
    (targetEndpoint targetNSManager : string) (candidate : NetworkServiceEndpoint) :
  getTargetEndpoint endpoints targetEndpoint targetNSManager = Some candidate →
  candidate ∈ endpoints ∧ nse_Name candidate = targetEndpoint.
Proof.
  induction endpoints as [| e endpoints IH]; cbn; [done |].
  case_bool_decide as Hname.
  - intros [= ->]. split; [left | done].
  - intros [Hin Heq]%IH. split; [by right | done].
Qed.

Section ResolverBehaviour.

Context {EndpointNSMName : Type} `{Countable EndpointNSMName}.
Variable NewEndpointNSMName :
  option NetworkServiceEndpoint → option NetworkServiceManager → EndpointNSMName.
Variable GetEndpointNSMName : option NSERegistration → EndpointNSMName.

Local Abbreviation ExclusionSet := (gmap EndpointNSMName (option NSERegistration)).
Local Abbreviation GetEndpoint' := (GetEndpoint NewEndpointNSMName GetEndpointNSMName).
Local Abbreviation identity := (candidate_identity NewEndpointNSMName).
Local Abbreviation filterEndpoints' := (filterEndpoints NewEndpointNSMName).

(** X1.  An error of discovery, from the service registry when it gives no
    discovery client or from the query itself, is the error [GetEndpoint]
    returns, with no registration; the selector is not called. *)
Theorem GetEndpoint_discovery_error
    {S : Type} (h : handler S) (s : S) (ctx : Context)
    (requestConnection : Connection) (ignoreEndpoints : ExclusionSet) (err : error) :
  err ∈ omap discovery_error (run h (GetEndpoint' ctx requestConnection ignoreEndpoints) s).2 →
  (run h (GetEndpoint' ctx requestConnection ignoreEndpoints) s).1.1
    = (None, Some err, ignoreEndpoints)
  ∧ omap selector_candidates
      (run h (GetEndpoint' ctx requestConnection ignoreEndpoints) s).2 = [].
Proof.
  unfold GetEndpoint. answers; intros Hin%list_elem_of_In; cbn in Hin;
    intuition (by simplify_eq).
Qed.

(** X2.  [GetEndpoint] only asks: every call it makes goes to the model's
    readers, to discovery or to the selector.  It deletes no local
    endpoint, opens no connection and cancels nothing. *)
Theorem GetEndpoint_only_queries
    {S : Type} (h : handler S) (s : S) (ctx : Context)
    (requestConnection : Connection) (ignoreEndpoints : ExclusionSet) :
  Forall (λ e, is_query e = true)
    (run h (GetEndpoint' ctx requestConnection ignoreEndpoints) s).2.
Proof.
  unfold GetEndpoint. answers; by repeat constructor.
Qed.

(** X3.  [GetEndpoint] never returns a registration together with an
    error, and once it has called discovery it returns exactly one of
    the two. *)
Theorem GetEndpoint_result_shape
    {S : Type} (h : handler S) (s : S) (ctx : Context)
    (requestConnection : Connection) (ignoreEndpoints : ExclusionSet) :
  let result := run h (GetEndpoint' ctx requestConnection ignoreEndpoints) s in
  (is_Some result.1.1.1.1 → result.1.1.1.2 = None)
  ∧ (existsb is_discovery result.2 = true →
     (result.1.1.1.1 = None ↔ is_Some result.1.1.1.2)).
Proof.
  unfold GetEndpoint. answers; (split; [| intros Hdisc; split]);
    first [done | by intros [? ?] | by eauto].
Qed.

(** X4.  A registration resolved through discovery for a request that pins
    an endpoint name is for an endpoint of that name taken from the
    response, and carries the response's network service. *)
Theorem GetEndpoint_pinned_name
    {S : Type} (h : handler S) (s s' : S) (ctx : Context)
    (requestConnection : Connection) (ignoreEndpoints ignoreEndpoints' : ExclusionSet)
    (registration : NSERegistration) (err : option error) (tr : list event)
    (endpointResponse : FindNetworkServiceResponse) :
  GetNetworkServiceEndpointName requestConnection ≠ "" →
  run h (GetEndpoint' ctx requestConnection ignoreEndpoints) s
    = ((Some registration, err, ignoreEndpoints'), s', tr) →
  last_response tr = Some endpointResponse →
  ∃ candidate,
    reg_NetworkServiceEndpoint registration = Some candidate
    ∧ candidate ∈ resp_NetworkServiceEndpoints endpointResponse
    ∧ nse_Name candidate = GetNetworkServiceEndpointName requestConnection
    ∧ reg_NetworkService registration = resp_NetworkService endpointResponse.
Proof.
  intros Hep%length_pos_nonempty. unfold GetEndpoint.
  answers; intros Hrun Hlast; simplify_eq; cbn in Hlast; simplify_eq.
  match goal with
  | Hfound : getTargetEndpoint _ _ _ = Some _ |- _ =>
      apply getTargetEndpoint_Some in Hfound as [Hin Hname]
  end.
  eauto.
Qed.

(** X5.  The pinned manager name takes no part in the search of the
    discovery response: the first candidate bearing the pinned endpoint
    name is returned although its manager is not the pinned one. *)
Theorem GetEndpoint_pinned_manager_unchecked
    {S : Type} (h : handler S) (s s1 s2 s3 : S) (ctx : Context)
    (requestConnection : Connection) (ignoreEndpoints : ExclusionSet)
    (nsm : option NetworkServiceManager) (dc : NetworkServiceDiscoveryClient)
    (endpointResponse : FindNetworkServiceResponse)
    (before after : list NetworkServiceEndpoint) (candidate : NetworkServiceEndpoint) :
  let targetEndpoint := GetNetworkServiceEndpointName requestConnection in
  let targetNsemName := GetDestinationNetworkServiceManagerName requestConnection in
  let nseRequest := {| req_NetworkServiceName := GetNetworkService requestConnection |} in
  targetEndpoint ≠ "" →
  NetworkServiceManager_GetName nsm ≠ targetNsemName →
  h _ Model_GetNsm s = (nsm, s1) →
  h _ (ServiceRegistry_DiscoveryClient ctx) s1 = (Done dc, s2) →
  h _ (DiscoveryClient_FindNetworkService dc ctx nseRequest) s2
    = (Done endpointResponse, s3) →
  resp_NetworkServiceEndpoints endpointResponse = before ++ candidate :: after →
  Forall (λ e, nse_Name e ≠ targetEndpoint) before →
  nse_Name candidate = targetEndpoint →
  nse_NetworkServiceManagerName candidate ≠ targetNsemName →
  (run h (GetEndpoint' ctx requestConnection ignoreEndpoints) s).1.1
    = (Some (registration_of endpointResponse candidate), None, ignoreEndpoints).
Proof.
  intros targetEndpoint targetNsemName nseRequest Hep Hmgr Hnsm Hdc Hfind Hsplit
    Hbefore Hname _.
  rewrite (GetEndpoint_pinned_discovery NewEndpointNSMName GetEndpointNSMName
             h s s1 s2 s3 ctx requestConnection ignoreEndpoints nsm dc endpointResponse)
    by auto.
  fold targetEndpoint targetNsemName. rewrite Hsplit.
  by rewrite getTargetEndpoint_first.
Qed.

(** *** The candidates of the open selection *)

(** X6.  [filterEndpoints] keeps the order of the discovery response and
    drops nothing but the excluded candidates: its result is a sublist of
    the response's endpoints, and a candidate is in it exactly when it is
    in the response and not excluded. *)
Theorem filterEndpoints_keeps
    (endpoints : list NetworkServiceEndpoint)
    (managers : gmap string NetworkServiceManager) (ignoreEndpoints : ExclusionSet) :
  sublist (filterEndpoints' endpoints managers ignoreEndpoints) endpoints
  ∧ ∀ c, c ∈ filterEndpoints' endpoints managers ignoreEndpoints
         ↔ c ∈ endpoints ∧ excluded ignoreEndpoints (identity managers c) = false.
Proof.
  split.
  - induction endpoints as [| e endpoints IH]; cbn; [done |].
    case_bool_decide; [by apply sublist_skip | by apply sublist_cons].
  - intros c. rewrite filterEndpoints_filter, !list_elem_of_In, List.filter_In.
    by rewrite negb_true_iff.
Qed.

(** X7.  [filterEndpoints] returns the endpoints of the response as they
    are exactly when none of them is excluded; a key held with a nil
    marker excludes nothing. *)
Theorem filterEndpoints_unchanged
    (endpoints : list NetworkServiceEndpoint)
    (managers : gmap string NetworkServiceManager) (ignoreEndpoints : ExclusionSet) :
  filterEndpoints' endpoints managers ignoreEndpoints = endpoints
  ↔ Forall (λ c, excluded ignoreEndpoints (identity managers c) = false) endpoints.
Proof.
  split.
  - intros <-. apply filterEndpoints_not_excluded.
  - induction 1 as [| c endpoints Hc _ IH]; cbn; [done |].
    fold (identity managers c). by rewrite excluded_index, Hc, IH.
Qed.

Lemma index_mono (small large : ExclusionSet) (k : EndpointNSMName) :
  small ⊆ large → index small k ≠ None → index large k ≠ None.
Proof.
  intros Hsub. unfold index.
  destruct (small !! k) as [marker |] eqn:Hk; cbn; [| done].
  by rewrite (lookup_weaken _ _ _ _ Hk Hsub).
Qed.

(** X8.  A larger exclusion map leaves fewer candidates: the candidates
    kept under a map that extends another are a sublist of those kept
    under the smaller one. *)
Theorem filterEndpoints_antitone
    (endpoints : list NetworkServiceEndpoint)
    (managers : gmap string NetworkServiceManager) (small large : ExclusionSet) :
  small ⊆ large →
  sublist (filterEndpoints' endpoints managers large)
    (filterEndpoints' endpoints managers small).
Proof.
  intros Hsub. induction endpoints as [| c endpoints IH]; cbn; [done |].
  destruct (bool_decide_reflect (index small
              (NewEndpointNSMName (Some c)
                 (managers !! nse_NetworkServiceManagerName c)) = None)) as [Hs | Hs].
  - case_bool_decide; [by apply sublist_skip | by apply sublist_cons].
  - rewrite bool_decide_eq_false_2 by (by apply (index_mono small large)). done.
Qed.

(** X9.  When the open selection fails, the error carries the requested
    network service, the size of the exclusion map as the number checked
    and the number of candidates left after filtering as the total: zero
    when none is left, whatever the response held. *)
Theorem GetEndpoint_open_selection_error
    {S : Type} (h : handler S) (s s' : S) (ctx : Context)
    (requestConnection : Connection) (ignoreEndpoints ignoreEndpoints' : ExclusionSet)
    (registration : option NSERegistration) (err : error) (tr : list event)
    (endpointResponse : FindNetworkServiceResponse) :
  let candidates :=
    filterEndpoints' (resp_NetworkServiceEndpoints endpointResponse)
      (resp_NetworkServiceManagers endpointResponse) ignoreEndpoints in
  GetNetworkServiceEndpointName requestConnection = "" →
  run h (GetEndpoint' ctx requestConnection ignoreEndpoints) s
    = ((registration, Some err, ignoreEndpoints'), s', tr) →
  last_response tr = Some endpointResponse →
  err = ErrNoNSE (GetNetworkService requestConnection) (size ignoreEndpoints)
          (length candidates)
  ∧ (omap selector_candidates tr = [] ↔ candidates = []).
Proof.
  intros candidates Hep. subst candidates. unfold GetEndpoint. rewrite Hep.
  answers; intros Hrun Hlast; simplify_eq; cbn in Hlast; simplify_eq; cbn;
    split; try done.
  - match goal with
    | Hlen : bool_decide (length ?l = 0) = true |- _ =>
        apply bool_decide_eq_true in Hlen; by destruct l
    end.
  - match goal with
    | Hlen : bool_decide (length ?l = 0) = false |- _ =>
        apply bool_decide_eq_false in Hlen; split; [done | by intros Hnil; rewrite Hnil in Hlen]
    end.
Qed.

(** *** The use of the collaborators *)

(** X10.  The selector is asked at most once per resolution, and never for
    a request that pins an endpoint name. *)
Theorem GetEndpoint_selector_use
    {S : Type} (h : handler S) (s : S) (ctx : Context)
    (requestConnection : Connection) (ignoreEndpoints : ExclusionSet) :
  let tr := (run h (GetEndpoint' ctx requestConnection ignoreEndpoints) s).2 in
  length (omap selector_candidates tr) ≤ 1
  ∧ (GetNetworkServiceEndpointName requestConnection ≠ "" →
     omap selector_candidates tr = []).
Proof.
  unfold GetEndpoint.
  destruct (GetNetworkServiceEndpointName requestConnection) as [| a name];
    answers; (split; [lia | done]).
Qed.

(** X11.  Discovery is queried at most once per resolution, for the
    network service of the request, and every call of [GetEndpoint] that
    takes a context takes the caller's own. *)
Theorem GetEndpoint_discovery_query
    {S : Type} (h : handler S) (s : S) (ctx : Context)
    (requestConnection : Connection) (ignoreEndpoints : ExclusionSet) :
  let tr := (run h (GetEndpoint' ctx requestConnection ignoreEndpoints) s).2 in
  let query :=
    (ctx, {| req_NetworkServiceName := GetNetworkService requestConnection |}) in
  (omap find_request tr = [] ∨ omap find_request tr = [query])
  ∧ Forall (λ e, ∀ c, call_context e = Some c → c = ctx) tr.
Proof.
  unfold GetEndpoint.
  answers; (split; [by eauto |]); repeat constructor; by intros ? [= <-].
Qed.

(** X12.  The choice of the selector is returned as it is: [GetEndpoint]
    does not look whether the chosen endpoint is among the candidates it
    handed over, and returns it although it is excluded. *)
Theorem GetEndpoint_selector_choice_unchecked
    {S : Type} (h : handler S) (s s1 s2 s3 s4 s5 : S) (ctx : Context)
    (requestConnection : Connection) (ignoreEndpoints : ExclusionSet)
    (nsm : option NetworkServiceManager) (dc : NetworkServiceDiscoveryClient)
    (endpointResponse : FindNetworkServiceResponse) (selector : Selector)
    (chosen : NetworkServiceEndpoint) :
  let nseRequest := {| req_NetworkServiceName := GetNetworkService requestConnection |} in
  let managers := resp_NetworkServiceManagers endpointResponse in
  let candidates :=
    filterEndpoints' (resp_NetworkServiceEndpoints endpointResponse)
      managers ignoreEndpoints in
  GetNetworkServiceEndpointName requestConnection = "" →
  h _ Model_GetNsm s = (nsm, s1) →
  h _ (ServiceRegistry_DiscoveryClient ctx) s1 = (Done dc, s2) →
  h _ (DiscoveryClient_FindNetworkService dc ctx nseRequest) s2
    = (Done endpointResponse, s3) →
  candidates ≠ [] →
  h _ Model_GetSelector s3 = (selector, s4) →
  h _ (Selector_SelectEndpoint selector requestConnection
         (resp_NetworkService endpointResponse) candidates) s4 = (Some chosen, s5) →
  chosen ∉ candidates →
  excluded ignoreEndpoints (identity managers chosen) = true →
  (run h (GetEndpoint' ctx requestConnection ignoreEndpoints) s).1.1
    = (Some (registration_of endpointResponse chosen), None, ignoreEndpoints).
Proof.
  intros nseRequest managers candidates Hep Hnsm Hdc Hfind Hne Hsel Hchosen _ _.
  unfold GetEndpoint. cbn -[String.length Nat.ltb].
  rewrite Hnsm, Hep. cbn. rewrite Hdc. cbn. fold nseRequest. rewrite Hfind.
  fold managers candidates.
  rewrite bool_decide_eq_false_2 by (by destruct candidates).
  cbn. rewrite Hsel. cbn. by rewrite Hchosen.
Qed.

End ResolverBehaviour.

(** * Further properties of the establisher and the prober *)

(** X13.  [CreateNSEClient] returns a client or an error, never both and
    never neither; a client obtained on the local path wraps the local
    connection ([endpointClient]) and one obtained on the remote path the
    remote one ([nsmClient]). *)
Theorem CreateNSEClient_result_shape
    {S : Type} (h : handler S) (s : S) (nsem : nseManager) (ctx : Context)
    (endpoint : option NSERegistration) :
  let result := run h (CreateNSEClient nsem ctx endpoint) s in
  match result.1.1 with
  | (Some (endpointClient _ _), None) =>
      local_path result.2 = true ∧ remote_path result.2 = false
  | (Some (nsmClient _ _), None) =>
      remote_path result.2 = true ∧ local_path result.2 = false
  | (None, Some _) => True
  | _ => False
  end.
Proof.
  unfold CreateNSEClient, IsLocalEndpoint, cleanupNSE. by answers.
Qed.

(** X14.  On the local path, when local state holds the endpoint and the
    local connection opens, the client wraps the connection and the
    transport client that were opened for the endpoint as local state
    holds it; nothing is evicted and no timeout scope is made. *)
Theorem CreateNSEClient_local_success
    {S : Type} (h : handler S) (s s1 s2 s3 : S) (nsem : nseManager) (ctx : Context)
    (endpoint : option NSERegistration) (nsm : option NetworkServiceManager)
    (modelEp : Endpoint) (client : TransportClient) (conn : ClientConn) :
  h _ Model_GetNsm s = (nsm, s1) →
  NetworkServiceManager_GetName nsm
    = NetworkServiceEndpoint_GetNetworkServiceManagerName
        (GetNetworkServiceEndpoint endpoint) →
  h _ (Model_GetEndpoint
         (NetworkServiceEndpoint_GetName (GetNetworkServiceEndpoint endpoint))) s1
    = (Some modelEp, s2) →
  h _ (ServiceRegistry_EndpointConnection (ctx_span ctx "createNSEClient") modelEp) s2
    = (Done (client, conn), s3) →
  run h (CreateNSEClient nsem ctx endpoint) s
    = ((Some (endpointClient conn client), None), s3,
       [Ev Model_GetNsm nsm;
        Ev (Model_GetEndpoint
              (NetworkServiceEndpoint_GetName (GetNetworkServiceEndpoint endpoint)))
           (Some modelEp);
        Ev (ServiceRegistry_EndpointConnection (ctx_span ctx "createNSEClient") modelEp)
           (Done (client, conn))]).
Proof.
  intros Hnsm Hown Hget Hopen.
  unfold CreateNSEClient, IsLocalEndpoint. cbn.
  rewrite Hnsm. cbn. rewrite bool_decide_eq_true_2 by done. cbn.
  rewrite Hget. cbn. by rewrite Hopen.
Qed.

(** X15.  [CreateNSEClient] evicts at most one endpoint, and only on the
    local path, under the context it was given, and together with an
    error: whenever it returns a client, nothing was evicted. *)
Theorem CreateNSEClient_eviction
    {S : Type} (h : handler S) (s : S) (nsem : nseManager) (ctx : Context)
    (endpoint : option NSERegistration) :
  let result := run h (CreateNSEClient nsem ctx endpoint) s in
  let evictions := List.filter is_delete result.2 in
  length evictions ≤ 1
  ∧ Forall (λ e, call_context e = Some ctx) evictions
  ∧ (evictions ≠ [] →
     local_path result.2 = true ∧ result.1.1.1 = None ∧ is_Some result.1.1.2)
  ∧ (is_Some result.1.1.1 → evictions = []).
Proof.
  unfold CreateNSEClient, IsLocalEndpoint, cleanupNSE.
  answers; repeat split; first [lia | done | by repeat constructor | by intros [? ?] | eauto].
Qed.

(** X16.  A probe of a local endpoint that cannot be connected to is not
    without effect: it answers [false] and the endpoint is evicted, once,
    under the probe's bounded context, before that context is
    cancelled. *)
Theorem CheckUpdateNSE_evicts
    {S : Type} (h : handler S) (s s1 s2 s3 s4 s5 : S) (nsem : nseManager)
    (ctx : Context) (reg : option NSERegistration)
    (nsm : option NetworkServiceManager) (modelEp : Endpoint) (err : error)
    (u v : unit) :
  let pingCtx := WithTimeout ctx (HealRequestConnectCheckTimeout (props nsem)) in
  let name := NetworkServiceEndpoint_GetName (GetNetworkServiceEndpoint reg) in
  h _ Model_GetNsm s = (nsm, s1) →
  NetworkServiceManager_GetName nsm
    = NetworkServiceEndpoint_GetNetworkServiceManagerName (GetNetworkServiceEndpoint reg) →
  h _ (Model_GetEndpoint name) s1 = (Some modelEp, s2) →
  h _ (ServiceRegistry_EndpointConnection (ctx_span pingCtx "createNSEClient") modelEp) s2
    = (Failed err, s3) →
  h _ (Model_DeleteEndpoint pingCtx (EndpointName modelEp)) s3 = (u, s4) →
  h _ (Context_cancel pingCtx) s4 = (v, s5) →
  run h (CheckUpdateNSE nsem ctx reg) s
    = (false, s5,
       [Ev Model_GetNsm nsm;
        Ev (Model_GetEndpoint name) (Some modelEp);
        Ev (ServiceRegistry_EndpointConnection (ctx_span pingCtx "createNSEClient") modelEp)
           (Failed err);
        Ev (Model_DeleteEndpoint pingCtx (EndpointName modelEp)) u;
        Ev (Context_cancel pingCtx) v]).
Proof.
  intros pingCtx name Hnsm Hown Hget Hopen Hdel Hcancel.
  unfold CheckUpdateNSE, CreateNSEClient, IsLocalEndpoint, cleanupNSE. cbn.
  rewrite Hnsm. cbn. rewrite bool_decide_eq_true_2 by done. cbn.
  fold name. rewrite Hget. cbn. fold pingCtx. rewrite Hopen. cbn.
  rewrite Hdel. cbn. by rewrite Hcancel.
Qed.

(** X17.  Whatever the collaborators answer, a probe cleans up exactly the
    client it obtained: one clean-up when it answers [true], none when it
    answers [false].  It ends by cancelling its bounded context, and the
    contexts it cancels are those that were made: on the remote path the
    connect scope first and then its own, otherwise its own alone. *)
Theorem CheckUpdateNSE_releases
    {S : Type} (h : handler S) (s : S) (nsem : nseManager) (ctx : Context)
    (reg : option NSERegistration) :
  let pingCtx := WithTimeout ctx (HealRequestConnectCheckTimeout (props nsem)) in
  let connectCtx :=
    WithTimeout (ctx_span pingCtx "createNSEClient")
      (HealRequestConnectTimeout (props nsem)) in
  let result := run h (CheckUpdateNSE nsem ctx reg) s in
  length (List.filter is_cleanup result.2) = (if result.1.1 then 1 else 0)
  ∧ (∃ u, last result.2 = Some (Ev (Context_cancel pingCtx) u))
  ∧ omap cancelled_context result.2
    = (if remote_path result.2 then [connectCtx; pingCtx] else [pingCtx]).
Proof.
  unfold CheckUpdateNSE, CreateNSEClient, IsLocalEndpoint, cleanupNSE.
  answers; (split; [done |]); (split; [by eauto | done]).
Qed.

(** ** The further theorems at work in the sample worlds *)

(** The discovery query fails, and so does a registry without discovery
    client. *)
Lemma GetEndpoint_discovery_error_witness :
  (run world (resolve (ctx_caller 0) request_open ignore_a) world_3).1.1
    = (None, Some (ErrCollaborator "registry unavailable"), ignore_a)
  ∧ (run (world_without_discovery (ErrCollaborator "no registry"))
       (resolve (ctx_caller 0) request_pinned_b ∅) world_1).1.1
    = (None, Some (ErrCollaborator "no registry"), ∅).
Proof.
  split.
  - apply (GetEndpoint_discovery_error pair_NewEndpointNSMName pair_GetEndpointNSMName
             world world_3 (ctx_caller 0) request_open ignore_a
             (ErrCollaborator "registry unavailable")).
    apply list_elem_of_In. cbn. by left.
  - apply (GetEndpoint_discovery_error pair_NewEndpointNSMName pair_GetEndpointNSMName
             (world_without_discovery (ErrCollaborator "no registry")) world_1
             (ctx_caller 0) request_pinned_b ∅ (ErrCollaborator "no registry")).
    apply list_elem_of_In. cbn. by left.
Defined.

(** The registration found for the pinned [ep-b] is for [ep-b]. *)
Lemma GetEndpoint_pinned_name_witness :
  ∃ candidate,
    reg_NetworkServiceEndpoint reg_b = Some candidate
    ∧ candidate ∈ [nse_a; nse_b]
    ∧ nse_Name candidate = "ep-b"
    ∧ reg_NetworkService reg_b = Some svc.
Proof.
  exact (GetEndpoint_pinned_name pair_NewEndpointNSMName pair_GetEndpointNSMName
           world world_1 world_1 (ctx_caller 0) request_pinned_b ignore_a ignore_a
           reg_b None
           [Ev Model_GetNsm (Some mgr_self);
            Ev (ServiceRegistry_DiscoveryClient (ctx_caller 0)) (Done 0);
            Ev (DiscoveryClient_FindNetworkService 0 (ctx_caller 0)
                  {| req_NetworkServiceName := "icmp" |}) (Done response_ab)]
           response_ab ltac:(done) eq_refl eq_refl).
Defined.

(** [ep-b] is pinned at a manager that does not own it, and found all the
    same. *)
Lemma GetEndpoint_pinned_manager_unchecked_witness :
  (run world (resolve (ctx_caller 0) request_pinned_b_elsewhere ∅) world_1).1.1
    = (Some reg_b, None, ∅).
Proof.
  exact (GetEndpoint_pinned_manager_unchecked
           pair_NewEndpointNSMName pair_GetEndpointNSMName
           world world_1 world_1 world_1 world_1 (ctx_caller 0)
           request_pinned_b_elsewhere ∅ (Some mgr_self) 0 response_ab [nse_a] [] nse_b
           ltac:(done) ltac:(done) eq_refl eq_refl eq_refl eq_refl
           ltac:(by repeat constructor) eq_refl ltac:(done)).
Defined.

(** A key with a nil marker excludes nothing. *)
Lemma filterEndpoints_unchanged_witness :
  filterEndpoints pair_NewEndpointNSMName [nse_a; nse_b]
    (resp_NetworkServiceManagers response_ab) ignore_nil
  = [nse_a; nse_b].
Proof.
  apply (filterEndpoints_unchanged pair_NewEndpointNSMName [nse_a; nse_b]
           (resp_NetworkServiceManagers response_ab) ignore_nil).
  by repeat constructor.
Defined.

(** Excluding [ep-b] as well leaves a sublist of what excluding [ep-a]
    alone leaves. *)
Lemma filterEndpoints_antitone_witness :
  sublist
    (filterEndpoints pair_NewEndpointNSMName [nse_a; nse_b]
       (resp_NetworkServiceManagers response_ab) (ignore_a ∪ ignore_b))
    (filterEndpoints pair_NewEndpointNSMName [nse_a; nse_b]
       (resp_NetworkServiceManagers response_ab) ignore_a).
Proof.
  apply (filterEndpoints_antitone pair_NewEndpointNSMName [nse_a; nse_b]
           (resp_NetworkServiceManagers response_ab) ignore_a (ignore_a ∪ ignore_b)).
  apply map_union_subseteq_l.
Defined.

(** Both candidates are excluded: two checked, none in total. *)
Lemma GetEndpoint_open_selection_error_witness :
  ErrNoNSE "icmp" 2 0
  = ErrNoNSE (GetNetworkService request_open) (size (ignore_a ∪ ignore_b))
      (length (filterEndpoints pair_NewEndpointNSMName [nse_a; nse_b]
                 (resp_NetworkServiceManagers response_ab) (ignore_a ∪ ignore_b)))
  ∧ (omap selector_candidates
       [Ev Model_GetNsm (Some mgr_self);
        Ev (ServiceRegistry_DiscoveryClient (ctx_caller 0)) (Done 0);
        Ev (DiscoveryClient_FindNetworkService 0 (ctx_caller 0)
              {| req_NetworkServiceName := "icmp" |}) (Done response_ab)] = []
     ↔ filterEndpoints pair_NewEndpointNSMName [nse_a; nse_b]
         (resp_NetworkServiceManagers response_ab) (ignore_a ∪ ignore_b) = []).
Proof.
  exact (GetEndpoint_open_selection_error pair_NewEndpointNSMName pair_GetEndpointNSMName
           world world_1 world_1 (ctx_caller 0) request_open
           (ignore_a ∪ ignore_b) (ignore_a ∪ ignore_b) None (ErrNoNSE "icmp" 2 0)
           [Ev Model_GetNsm (Some mgr_self);
            Ev (ServiceRegistry_DiscoveryClient (ctx_caller 0)) (Done 0);
            Ev (DiscoveryClient_FindNetworkService 0 (ctx_caller 0)
                  {| req_NetworkServiceName := "icmp" |}) (Done response_ab)]
           response_ab eq_refl GetEndpoint_all_excluded eq_refl).
Defined.

(** The local endpoint accepts the connection. *)
Lemma CreateNSEClient_local_success_witness :
  run world (CreateNSEClient manager_1 (ctx_caller 0) (Some reg_a)) world_3
  = ((Some (endpointClient 4 3), None), world_3,
     [Ev Model_GetNsm (Some mgr_self);
      Ev (Model_GetEndpoint "ep-a") (Some local_a);
      Ev (ServiceRegistry_EndpointConnection
            (ctx_span (ctx_caller 0) "createNSEClient") local_a) (Done (3, 4))]).
Proof.
  exact (CreateNSEClient_local_success world world_3 world_3 world_3 world_3 manager_1
           (ctx_caller 0) (Some reg_a) (Some mgr_self) local_a 3 4
           eq_refl eq_refl eq_refl eq_refl).
Defined.

(** The probe of the local endpoint that refuses the connection. *)
Lemma CheckUpdateNSE_evicts_witness :
  run world (CheckUpdateNSE manager_1 (ctx_caller 0) (Some reg_a)) world_1
  = (false, delete_endpoint "ep-a" world_1,
     [Ev Model_GetNsm (Some mgr_self);
      Ev (Model_GetEndpoint "ep-a") (Some local_a);
      Ev (ServiceRegistry_EndpointConnection
            (ctx_span (WithTimeout (ctx_caller 0) 1000000000%Z) "createNSEClient")
            local_a) (Failed (ErrCollaborator "connection refused"));
      Ev (Model_DeleteEndpoint (WithTimeout (ctx_caller 0) 1000000000%Z) "ep-a") tt;
      Ev (Context_cancel (WithTimeout (ctx_caller 0) 1000000000%Z)) tt]).
Proof.
  exact (CheckUpdateNSE_evicts world world_1 world_1 world_1 world_1
           (delete_endpoint "ep-a" world_1) (delete_endpoint "ep-a" world_1)
           manager_1 (ctx_caller 0) (Some reg_a) (Some mgr_self) local_a
           (ErrCollaborator "connection refused") tt tt
           eq_refl eq_refl eq_refl eq_refl eq_refl eq_refl).
Defined.

(** The selector answers with the excluded [ep-a]. *)
Lemma GetEndpoint_selector_choice_unchecked_witness :
  (run (world_with_selector (Some nse_a))
     (resolve (ctx_caller 0) request_open ignore_a) world_1).1.1
  = (Some reg_a, None, ignore_a).
Proof.
  exact (GetEndpoint_selector_choice_unchecked
           pair_NewEndpointNSMName pair_GetEndpointNSMName
           (world_with_selector (Some nse_a))
           world_1 world_1 world_1 world_1 world_1 world_1 (ctx_caller 0)
           request_open ignore_a (Some mgr_self) 0 response_ab 0 nse_a
           eq_refl eq_refl eq_refl eq_refl ltac:(done) eq_refl eq_refl
           ltac:(by intros [Heq | Hnil%elem_of_nil]%elem_of_cons) eq_refl).
Defined.

